(** * The Foreign Desk API: a shallow embedding of [main.py]

    The handlers of [main.py] and the helper [_normalize] are embedded as
    Rocq functions.  Python dictionaries are finite maps keyed by strings
    ([gmap string value]); the document store, [bson] and the Python
    builtins the handlers call are interfaces (type classes), so every
    theorem holds for all their implementations.

    A Python [str] is represented by the [string] of its UTF-8 encoding:
    equality and emptiness are those of the Python string, and slicing by
    characters is [str_slice_to] below. *)

From Stdlib Require Import Ascii.
From stdpp Require Import gmap strings list fin_maps pretty.

Set Warnings "-register-all".

Open Scope string_scope.
Open Scope Z_scope.

(** ** Values *)

(** What the handlers need of [bson.ObjectId] and [datetime.datetime]. *)
Class Bson := {
  ObjectId : Type;
  ObjectId_eq_dec :: EqDecision ObjectId;
  (** [ObjectId(s)] on a [str]; [None] when it raises [InvalidId]. *)
  ObjectId_new : string → option ObjectId;
  datetime : Type;
  (** [t.isoformat()] *)
  isoformat : datetime → string;
}.

(** Python values that occur in a stored document. *)
Inductive value `{Bson} : Type :=
| VNone
| VBool (b : bool)
| VInt (z : Z)
| VStr (s : string)
| VObjectId (o : ObjectId)
| VDatetime (t : datetime)
| VList (l : list value)
| VDict (m : gmap string value).

(** A Python [dict] with [str] keys. *)
Abbreviation dict := (gmap string value).

(** Python builtins whose result depends on the run-time class of the
    argument. *)
Class Builtins `{Bson} := {
  (** [str(v)] *)
  str : value → string;
  (** [str(e)] for the [InvalidId] that [ObjectId(s)] raises. *)
  InvalidId_str : string → string;
  (** [str(e)] for [e = HTTPException(status_code, detail)]. *)
  HTTPException_str : Z → string → string;
}.

(** [ObjectId.is_valid(s)] of [bson]: a non-empty [s] that the constructor
    accepts. *)
Definition is_valid `{Bson} (s : string) : bool :=
  match s with
  | EmptyString => false
  | _ => bool_decide (is_Some (ObjectId_new s))
  end.

(** [isinstance(v, datetime)] *)
Definition is_datetime `{Bson} (v : value) : bool :=
  match v with VDatetime _ => true | _ => false end.

(** [not doc], for [doc] that is [None] or a [dict]. *)
Definition falsy `{Bson} (doc : option dict) : bool :=
  match doc with
  | None => true
  | Some d => bool_decide (d = ∅)
  end.

(** ** Strings: slicing by characters *)

(** A byte [10xxxxxx] continues a character of the UTF-8 encoding. *)
Definition is_continuation (a : ascii) : bool :=
  let n := nat_of_ascii a in
  ((128 <=? n) && (n <? 192))%nat.

(** The number of characters, [len(s)]. *)
Fixpoint str_len (s : string) : nat :=
  match s with
  | EmptyString => 0%nat
  | String a s' => if is_continuation a then str_len s' else S (str_len s')
  end.

(** [s[:n]]: the first [n] characters of [s]. *)
Fixpoint str_slice_to (n : nat) (s : string) : string :=
  match s with
  | EmptyString => EmptyString
  | String a s' =>
      if is_continuation a then String a (str_slice_to n s')
      else match n with
           | O => EmptyString
           | S n' => String a (str_slice_to n' s')
           end
  end.

(** ** The normalizer *)

Section normalize.
Context `{Builtins}.

(** One turn of the loop of [_normalize]:
    [if isinstance(v, datetime): d[k] = v.isoformat()]. *)
Definition convert_item (d : dict) (kv : string * value) : dict :=
  match kv.2 with
  | VDatetime t => <[kv.1 := VStr (isoformat t)]> d
  | _ => d
  end.

(** [_normalize(doc)], on the contents of the dictionaries.  [d] is the
    copy [dict(doc)]; the loop runs over the snapshot [list(d.items())]. *)
Definition _normalize (doc : option dict) : option dict :=
  if falsy doc then doc
  else
    d ← doc;
    let d :=
      match d !! "_id" with
      | Some v => <["id" := VStr (str v)]> (delete "_id" d)
      | None => d
      end in
    Some (foldl convert_item d (map_to_list d)).

(** What the loop does to one value. *)
Definition iso_value (v : value) : value :=
  match v with
  | VDatetime t => VStr (isoformat t)
  | _ => v
  end.
End normalize.

(** ** The normalizer on the heap

    The same function with the dictionaries as objects of a heap, to
    follow which object each statement writes.  [dict(doc)] is a shallow
    copy: the values of the copy are those of the original, and no
    statement of the function writes inside a value. *)

Module Heap.
Abbreviation loc := positive.

(** The dictionary objects, by address. *)
Abbreviation heap := (gmap loc (gmap string value)).

Section ops.
Context `{Builtins}.

(** A statement: it reads and writes the heap, and is stuck ([None])
    on an address that holds no object. *)
Definition cmd (A : Type) : Type := heap → option (A * heap).

#[global] Instance cmd_ret : MRet cmd := λ A a h, Some (a, h).

#[global] Instance cmd_bind : MBind cmd := λ A B k c h,
  match c h with
  | Some (a, h') => k a h'
  | None => None
  end.

(** The contents of the object at [l]. *)
Definition load (l : loc) : cmd dict :=
  λ h, d ← h !! l; Some (d, h).

(** [dict(doc)]: a new object with the items of [l]. *)
Definition dict_copy (l : loc) : cmd loc :=
  λ h, d ← h !! l;
       let l' := fresh (dom h) in
       Some (l', <[l' := d]> h).

(** [d[k] = v] *)
Definition setitem (l : loc) (k : string) (v : value) : cmd unit :=
  λ h, d ← h !! l; Some ((), <[l := <[k := v]> d]> h).

(** [d.pop(k)], for a key that [d] has. *)
Definition pop (l : loc) (k : string) : cmd value :=
  λ h, d ← h !! l; v ← d !! k; Some (v, <[l := delete k d]> h).

(** [for x in xs: body(x)] *)
Fixpoint for_each {A} (xs : list A) (body : A → cmd unit) : cmd unit :=
  match xs with
  | [] => mret ()
  | x :: xs' => body x;; for_each xs' body
  end.

(** [_normalize(doc)], for [doc] that is [None] or the address of a
    dictionary; the result is [doc] itself or the address of [d]. *)
Definition _normalize (doc : option loc) : cmd (option loc) :=
  match doc with
  | None => mret doc
  | Some l =>
      c ← load l;
      if bool_decide (c = ∅) then mret doc
      else
        d ← dict_copy l;
        c ← load d;
        (if bool_decide (is_Some (c !! "_id"))
         then v ← pop d "_id"; setitem d "id" (VStr (str v))
         else mret ());;
        items ← load d;
        for_each (map_to_list items) (λ kv,
          match kv.2 with
          | VDatetime t => setitem d kv.1 (VStr (isoformat t))
          | _ => mret ()
          end);;
        mret (Some d)
  end.
End ops.
End Heap.

(** ** The document store and the handler monad *)

(** The modules [database] (through [pymongo]) and [schemas] that
    [main.py] imports: the store handle and the request body of a post. *)
Class Collaborators := {
  Database : Type;
  Post : Type;
}.

(** The calls the handlers make on the store, each with the type of its
    result.  [delete_one] stands for the call followed by the read of
    [res.deleted_count]. *)
Inductive storeE `{Bson, Collaborators} : Type → Type :=
| list_collection_names (db : Database) : storeE (list string)
| get_documents (collection_name : string) (filter_dict : dict) (limit : Z) :
    storeE (list dict)
| create_document (collection_name : string) (data : Post) : storeE string
| find_one (db : Database) (collection : string) (filter : dict) :
    storeE (option dict)
| delete_one (db : Database) (collection : string) (filter : dict) : storeE Z.

(** A store call returns, or raises an exception [e] of the store, given
    here by [str(e)]. *)
Inductive outcome (X : Type) : Type :=
| Returns (x : X)
| Raises (e : string).
Arguments Returns {X} x.
Arguments Raises {X} e.

(** A computation that calls the store. *)
Inductive prog `{Bson, Collaborators} (R : Type) : Type :=
| Ret (r : R)
| Call {X : Type} (e : storeE X) (k : outcome X → prog R).
Arguments Ret {_ _ R} r.
Arguments Call {_ _ R X} e k.

(** Python exceptions: [fastapi.HTTPException], or any other [Exception],
    given by its [str]. *)
Inductive exn : Type :=
| HTTPException (status_code : Z) (detail : string)
| Exception (message : string).

(** How a Python function ends. *)
Inductive result (A : Type) : Type :=
| Return (a : A)
| Raise (e : exn).
Arguments Return {A} a.
Arguments Raise {A} e.

(** The status of the response FastAPI makes of it: 200 for a value, the
    status of an [HTTPException], 500 for an exception nobody caught. *)
Definition status_of {A} (r : result A) : Z :=
  match r with
  | Return _ => 200
  | Raise (HTTPException status_code _) => status_code
  | Raise (Exception _) => 500
  end.

Section monad.
Context `{Bson, Collaborators}.

Fixpoint prog_bind {A B} (k : A → prog B) (p : prog A) : prog B :=
  match p with
  | Ret a => k a
  | Call e c => Call e (λ o, prog_bind k (c o))
  end.

(** A Python function body. *)
Definition py (A : Type) : Type := prog (result A).

#[export] Instance py_ret : MRet py := λ A a, Ret (Return a).

#[export] Instance py_bind : MBind py := λ A B k,
  prog_bind (λ r, match r with
                  | Return a => k a
                  | Raise e => Ret (Raise e)
                  end).

(** [raise e] *)
Definition raise {A} (e : exn) : py A := Ret (Raise e).

(** A store call in a function body: its exception is raised there. *)
Definition call {X} (e : storeE X) : py X :=
  Call e (λ o, match o with
               | Returns x => Ret (Return x)
               | Raises m => Ret (Raise (Exception m))
               end).

(** [try: body  except Exception as e: handler(e)] *)
Definition try_except {A} (body : py A) (handler : exn → py A) : py A :=
  prog_bind (λ r, match r with
                  | Return a => Ret (Return a)
                  | Raise e => handler e
                  end) body.

(** [if c: raise e] *)
Definition raise_if (c : bool) (e : exn) : py unit :=
  if c then raise e else mret ().
End monad.

(** ** The handlers *)

(** The dictionary [GET /test] returns. *)
Record status : Type := {
  backend : string;
  database : string;
  collections : list string;
}.

Section handlers.
Context `{Builtins, Collaborators}.

(** [str(e)] *)
Definition exn_str (e : exn) : string :=
  match e with
  | HTTPException status_code detail => HTTPException_str status_code detail
  | Exception message => message
  end.

(** [read_root] *)
Definition read_root : py (gmap string string) :=
  mret {[ "message" := "The Foreign Desk backend is running" ]}.

(** [test_database].  [db] is the module variable [database.db].  In the
    outer [try] only the call can raise, and the inner [except] catches
    it, so the outer [except] has no path to it. *)
Definition test_database (db : option Database) : py status :=
  let backend := "✅ Running" in
  match db with
  | Some db =>
      try_except
        (names ← call (list_collection_names db);
         mret {| backend := backend;
                 database := "✅ Connected";
                 collections := take 10 names |})
        (λ e, mret {| backend := backend;
                       database := "⚠️ Connected but error: "
                                     +:+ str_slice_to 80 (exn_str e);
                       collections := [] |})
  | None =>
      mret {| backend := backend;
              database := "❌ Not Configured";
              collections := [] |}
  end.

(** The filter of [list_posts]: [regex] and [filter_dict]. *)
Definition regex (q : string) : value :=
  VDict {[ "$regex" := VStr q; "$options" := VStr "i" ]}.

Definition filter_dict (q : option string) : dict :=
  match q with
  | None | Some EmptyString => ∅
  | Some q =>
      {[ "$or" := VList [ VDict {[ "title" := regex q ]};
                          VDict {[ "region" := regex q ]};
                          VDict {[ "excerpt" := regex q ]};
                          VDict {[ "tags" := regex q ]} ] ]}
  end.

(** [nd.get(k, default)] *)
Definition get (nd : dict) (k : string) (default : value) : value :=
  match nd !! k with
  | Some v => v
  | None => default
  end.

(** The dictionary [list_posts] appends for [nd]. *)
Definition post_dict (nd : dict) : dict :=
  {[ "title" := get nd "title" (VStr EmptyString);
     "region" := get nd "region" (VStr EmptyString);
     "excerpt" := get nd "excerpt" (VStr EmptyString);
     "date" := get nd "date" VNone;
     "tags" := get nd "tags" (VList []);
     "content" := get nd "content" (VList []) ]}.

(** The loop of [list_posts]: [normalized] is the list built so far.
    [nd.get] on [None] raises [AttributeError]. *)
Fixpoint append_posts (docs : list dict) (normalized : list dict) :
    result (list dict) :=
  match docs with
  | [] => Return normalized
  | doc :: docs' =>
      match _normalize (Some doc) with
      | Some nd => append_posts docs' (normalized ++ [post_dict nd])
      | None => Raise (Exception "'NoneType' object has no attribute 'get'")
      end
  end.

(** [list_posts] *)
Definition list_posts (q : option string) (limit : Z) : py (list dict) :=
  docs ← call (get_documents "post" (filter_dict q) limit);
  Ret (append_posts docs []).

(** [create_post] *)
Definition create_post (post : Post) : py (gmap string string) :=
  try_except
    (inserted_id ← call (create_document "post" post);
     mret {[ "id" := inserted_id ]})
    (λ e, raise (HTTPException 500 (exn_str e))).

(** The two [except] clauses that [get_post] and [delete_post] share. *)
Definition reraise {A} (e : exn) : py A :=
  match e with
  | HTTPException _ _ => raise e
  | Exception _ => raise (HTTPException 500 (exn_str e))
  end.

(** [db["post"]] *)
Definition getitem (db : option Database) : py Database :=
  match db with
  | Some db => mret db
  | None => raise (Exception "'NoneType' object is not subscriptable")
  end.

(** [ObjectId(post_id)] *)
Definition ObjectId_ (post_id : string) : py ObjectId :=
  match ObjectId_new post_id with
  | Some oid => mret oid
  | None => raise (Exception (InvalidId_str post_id))
  end.

(** [get_post] *)
Definition get_post (db : option Database) (post_id : string) :
    py (option dict) :=
  try_except
    (raise_if (negb (is_valid post_id)) (HTTPException 400 "Invalid id");;
     collection ← getitem db;
     oid ← ObjectId_ post_id;
     doc ← call (find_one collection "post" {[ "_id" := VObjectId oid ]});
     raise_if (falsy doc) (HTTPException 404 "Not found");;
     mret (_normalize doc))
    reraise.

(** [delete_post] *)
Definition delete_post (db : option Database) (post_id : string) :
    py (gmap string string) :=
  try_except
    (raise_if (negb (is_valid post_id)) (HTTPException 400 "Invalid id");;
     collection ← getitem db;
     oid ← ObjectId_ post_id;
     deleted_count ← call (delete_one collection "post"
                             {[ "_id" := VObjectId oid ]});
     raise_if (bool_decide (deleted_count = 0))
              (HTTPException 404 "Not found");;
     mret {[ "status" := "deleted" ]})
    reraise.
End handlers.

(** ** Running a handler against a store *)

Section exec.
Context `{Bson, Collaborators}.

(** One store call, with its arguments. *)
Definition store_call : Type := sigT storeE.

(** A store with states [σ]: what each call answers and the state it
    leaves. *)
Definition store (σ : Type) : Type := ∀ X, storeE X → σ → outcome X * σ.

(** The result of [p] on the store [st] in state [s], the state left,
    and the calls made, in order. *)
Fixpoint exec {σ R} (st : store σ) (p : prog R) (s : σ) :
    R * σ * list store_call :=
  match p with
  | Ret r => (r, s, [])
  | Call e k =>
      let '(o, s') := st _ e s in
      let '(r, s'', calls) := exec st (k o) s' in
      (r, s'', existT _ e :: calls)
  end.
End exec.

(** ** What a filter matches

    The store's reading of the filters [list_posts] and [get_post] build.
    The regular-expression engine is the store's. *)

Class Regex := {
  (** Does [pattern], under [options], match somewhere in [subject]? *)
  regex_search (pattern options subject : string) : bool;
}.

Section matches.
Context `{Bson, Regex}.

(** A regular expression on a field: a string matches by itself, a list
    by one of its strings. *)
Definition regex_field (pattern options : string) (field : option value) :
    bool :=
  match field with
  | Some (VStr s) => regex_search pattern options s
  | Some (VList l) =>
      existsb (λ x, match x with
                    | VStr s => regex_search pattern options s
                    | _ => false
                    end) l
  | _ => false
  end.

(** [{field: cond}], for [cond] a regular expression or an identifier. *)
Definition matches_cond (doc : dict) (field : string) (cond : value) :
    bool :=
  match cond with
  | VDict r =>
      match r !! "$regex", r !! "$options" with
      | Some (VStr pattern), Some (VStr options) =>
          regex_field pattern options (doc !! field)
      | Some (VStr pattern), None => regex_field pattern EmptyString (doc !! field)
      | _, _ => false
      end
  | VObjectId oid =>
      match doc !! field with
      | Some (VObjectId o) => bool_decide (o = oid)
      | _ => false
      end
  | _ => false
  end.

(** A filter without operators: all of its fields hold. *)
Definition matches_fields (doc : dict) (flt : dict) : bool :=
  forallb (λ kv, matches_cond doc kv.1 kv.2) (map_to_list flt).

(** A filter: all of its entries hold, and [$or] holds when one of its
    filters does. *)
Definition matches (flt : dict) (doc : dict) : bool :=
  forallb (λ kv,
    if bool_decide (kv.1 = "$or") then
      match kv.2 with
      | VList alternatives =>
          existsb (λ f, match f with
                        | VDict m => matches_fields doc m
                        | _ => false
                        end) alternatives
      | _ => false
      end
    else matches_cond doc kv.1 kv.2) (map_to_list flt).
End matches.

(** ** Substrings

    The words of the specification for what a search finds: a field
    contains [q] as a substring, whatever the case of the ASCII
    letters. *)

(** [a] in lower case. *)
Definition fold_ascii (a : ascii) : ascii :=
  let n := N_of_ascii a in
  if ((65 <=? n) && (n <=? 90))%N then ascii_of_N (n + 32) else a.

Fixpoint casefold (s : string) : string :=
  match s with
  | EmptyString => EmptyString
  | String a s' => String (fold_ascii a) (casefold s')
  end.

(** [s] begins with [q]. *)
Fixpoint starts_with (q s : string) : bool :=
  match q with
  | EmptyString => true
  | String a q' =>
      match s with
      | EmptyString => false
      | String b s' => Ascii.eqb a b && starts_with q' s'
      end
  end.

(** [q] occurs in [s]. *)
Fixpoint contains (q s : string) : bool :=
  starts_with q s
  || match s with
     | EmptyString => false
     | String _ s' => contains q s'
     end.

(** [q] occurs in [s], whatever the case of the letters. *)
Definition contains_ci (q s : string) : bool :=
  contains (casefold q) (casefold s).

(** A field contains [q]: a string by itself, a list by one of its
    strings. *)
Definition field_contains_ci `{Bson} (q : string) (field : option value) :
    bool :=
  match field with
  | Some (VStr s) => contains_ci q s
  | Some (VList l) =>
      existsb (λ x, match x with
                    | VStr s => contains_ci q s
                    | _ => false
                    end) l
  | _ => false
  end.

(** ** An implementation of the interfaces

    Identifiers of 24 hexadecimal digits, naive datetimes without
    microseconds, a regular-expression engine for patterns of ordinary
    characters and dots, and a store in memory. *)

Module Sample.

Definition hex_digit (a : ascii) : option N :=
  let n := N_of_ascii a in
  if ((48 <=? n) && (n <=? 57))%N then Some (n - 48)%N
  else if ((97 <=? n) && (n <=? 102))%N then Some (n - 87)%N
  else if ((65 <=? n) && (n <=? 70))%N then Some (n - 55)%N
  else None.

Fixpoint parse_hex (s : string) (acc : N) : option N :=
  match s with
  | EmptyString => Some acc
  | String a s' => d ← hex_digit a; parse_hex s' (16 * acc + d)%N
  end.

Definition hex_char (d : N) : ascii :=
  ascii_of_N (if (d <? 10)%N then 48 + d else 87 + d)%N.

(** The last [digits] hexadecimal digits of [n]. *)
Fixpoint to_hex (digits : nat) (n : N) : string :=
  match digits with
  | O => EmptyString
  | S k => to_hex k (n / 16)%N +:+ String (hex_char (n mod 16)%N) EmptyString
  end.

Definition dec (digits : nat) (n : N) : string :=
  (fix go (digits : nat) (n : N) : string :=
     match digits with
     | O => EmptyString
     | S k => go k (n / 10)%N +:+ String (ascii_of_N (48 + n mod 10)%N) EmptyString
     end) digits n.

Record naive_datetime : Type := {
  year : N; month : N; day : N; hour : N; minute : N; second : N;
}.

Definition date_str (t : naive_datetime) : string :=
  dec 4 (year t) +:+ "-" +:+ dec 2 (month t) +:+ "-" +:+ dec 2 (day t).

Definition time_str (t : naive_datetime) : string :=
  dec 2 (hour t) +:+ ":" +:+ dec 2 (minute t) +:+ ":" +:+ dec 2 (second t).

#[local] Instance bson : Bson := {|
  ObjectId := N;
  ObjectId_new s :=
    if bool_decide (String.length s = 24%nat) then parse_hex s 0%N
    else None;
  datetime := naive_datetime;
  isoformat t := date_str t +:+ "T" +:+ time_str t;
|}.

(** [repr(v)], without the escapes of a string and with the items of a
    dictionary in the order of the map. *)
Fixpoint repr (v : value) : string :=
  match v with
  | VNone => "None"
  | VBool b => if b then "True" else "False"
  | VInt z => pretty z
  | VStr s => "'" +:+ s +:+ "'"
  | VObjectId o => "ObjectId('" +:+ to_hex 24 o +:+ "')"
  | VDatetime t =>
      "datetime.datetime(" +:+ pretty (year t) +:+ ", " +:+
      pretty (month t) +:+ ", " +:+ pretty (day t) +:+ ", " +:+
      pretty (hour t) +:+ ", " +:+ pretty (minute t) +:+
      (if bool_decide (second t = 0%N) then EmptyString
       else ", " +:+ pretty (second t)) +:+ ")"
  | VList l => "[" +:+ String.concat ", " (map repr l) +:+ "]"
  | VDict m =>
      "{" +:+
      String.concat ", "
        (map (λ kv : string * string, "'" +:+ kv.1 +:+ "': " +:+ kv.2)
             (map_to_list (repr <$> m))) +:+ "}"
  end.

#[local] Instance builtins : Builtins := {|
  str v :=
    match v with
    | VStr s => s
    | VObjectId o => to_hex 24 o
    | VDatetime t => date_str t +:+ " " +:+ time_str t
    | _ => repr v
    end;
  InvalidId_str s :=
    "'" +:+ s +:+ "' is not a valid ObjectId, it must be a 12-byte " +:+
    "input or a 24-character hex string";
  HTTPException_str status_code detail :=
    pretty status_code +:+ ": " +:+ detail;
|}.

#[local] Instance collaborators : Collaborators := {|
  Database := unit;
  Post := dict;
|}.

Definition lower (a : ascii) : ascii :=
  let n := N_of_ascii a in
  if ((65 <=? n) && (n <=? 90))%N then ascii_of_N (n + 32) else a.

Fixpoint lowercase (s : string) : string :=
  match s with
  | EmptyString => EmptyString
  | String a s' => String (lower a) (lowercase s')
  end.

(** A pattern without metacharacters matches where it occurs; with the
    option [i], whatever the case of the letters. *)
#[local] Instance literal : Regex := {|
  regex_search pattern options subject :=
    if bool_decide (is_Some (String.index 0 "i" options)) then
      bool_decide
        (is_Some (String.index 0 (lowercase pattern) (lowercase subject)))
    else bool_decide (is_Some (String.index 0 pattern subject));
|}.

(** The string after the bytes that continue a character. *)
Fixpoint skip_continuation (s : string) : string :=
  match s with
  | EmptyString => EmptyString
  | String b s' => if is_continuation b then skip_continuation s' else s
  end.

(** Does [p], a pattern of ordinary characters and dots, match at the
    start of [s]?  A dot matches one character other than a newline. *)
Fixpoint dot_prefix (p s : string) : bool :=
  match p with
  | EmptyString => true
  | String a p' =>
      match s with
      | EmptyString => false
      | String b s' =>
          if Ascii.eqb a "."
          then negb (is_continuation b) && negb (Ascii.eqb b "010")
               && dot_prefix p' (skip_continuation s')
          else Ascii.eqb a b && dot_prefix p' s'
      end
  end.

Fixpoint dot_search (p s : string) : bool :=
  dot_prefix p s
  || match s with
     | EmptyString => false
     | String _ s' => dot_search p s'
     end.

(** A regular-expression engine for the patterns made of ordinary
    characters and dots; with the option [i], whatever the case of the
    letters. *)
Definition dotted : Regex := {|
  regex_search pattern options subject :=
    if contains "i" options
    then dot_search (casefold pattern) (casefold subject)
    else dot_search pattern subject;
|}.

(** A pattern without dots. *)
Fixpoint no_dot (p : string) : bool :=
  match p with
  | EmptyString => true
  | String a p' => negb (Ascii.eqb a ".") && no_dot p'
  end.

(** The collections, and the identifier the next insert assigns. *)
Record memory : Type := {
  colls : gmap string (list dict);
  next : N;
}.

Definition coll (s : memory) (name : string) : list dict :=
  default [] (colls s !! name).

(** The list without its first element that [p] accepts. *)
Fixpoint remove_first (p : dict → bool) (l : list dict) :
    option (list dict) :=
  match l with
  | [] => None
  | d :: l' => if p d then Some l' else (d ::.) <$> remove_first p l'
  end.

(** Modelled from the spec: the document store adapter (the module
    [database] is not part of the sources).  [insert] persists the
    document and returns the identifier it assigned, as a string;
    [find] returns at most [limit] matching documents; the lookup by
    identifier returns zero or one document; the delete by identifier
    returns the count of documents removed. *)
Definition in_memory : store memory := λ X e,
  match e in storeE X return memory → outcome X * memory with
  | list_collection_names _ =>
      λ s, (Returns (map_to_list (colls s)).*1, s)
  | get_documents name flt limit =>
      λ s, (Returns (take (Z.to_nat limit)
                       (List.filter (@matches bson dotted flt)
                                    (coll s name))), s)
  | create_document name data =>
      λ s, let d : dict := <["_id" := VObjectId (next s)]> data in
           (Returns (to_hex 24 (next s)),
            {| colls := <[name := (coll s name ++ [d])%list]> (colls s);
               next := (next s + 1)%N |})
  | find_one _ name flt =>
      λ s, (Returns (head (List.filter (@matches bson dotted flt)
                                       (coll s name))), s)
  | delete_one _ name flt =>
      λ s, match remove_first (@matches bson dotted flt) (coll s name) with
           | Some l => (Returns 1, {| colls := <[name := l]> (colls s);
                                      next := next s |})
           | None => (Returns 0, s)
           end
  end.

(** A store that cannot be reached: every call raises. *)
Definition unreachable : store unit := λ X e s,
  (Raises "localhost:27017: [Errno 111] Connection refused", s).

(** A store that cannot be reached, with a long message. *)
Definition timeout_message : string :=
  "münchen.example:27017: [Errno 111] Connection refused, Timeout: 30s, " +:+
  "Topology Déscription: <TopologyDescription id: 65a1b2c3, " +:+
  "topology_type: Unknown>".

Definition timed_out : store unit := λ X e s, (Raises timeout_message, s).

(** Documents for the examples. *)
Definition oid1 : N := 0x65a1b2c3d4e5f60718293a4b%N.

Definition markets : dict :=
  {[ "_id" := VObjectId oid1;
     "title" := VStr "Global Markets Shift";
     "region" := VStr "Europe";
     "created_at" := VDatetime {| year := 2024; month := 1; day := 15;
                                  hour := 9; minute := 30; second := 0 |};
     "views" := VInt 12 ]}.

Definition shelf : memory :=
  {| colls := {[ "post" := [markets] ]}; next := (oid1 + 1)%N |}.

(** The identifier of [markets], one that no document has, and a
    string that is no identifier. *)
Definition found : string := "65a1b2c3d4e5f60718293a4b".
Definition missing : string := "65a1b2c3d4e5f60718293aff".
Definition malformed : string := "not-an-id".

(** A heap with [markets] as its only object. *)
Definition one_object : Heap.heap := {[ 1%positive := markets ]}.

Definition noon : naive_datetime :=
  {| year := 2024; month := 3; day := 1;
     hour := 12; minute := 0; second := 0 |}.

Definition briefing_id : value := VObjectId (oid1 + 1)%N.

(** Datetimes inside a dictionary and inside a list. *)
Definition timeline : value :=
  VList [ VDict {[ "at" := VDatetime noon ]}; VDatetime noon ].

Definition briefing : dict :=
  {[ "_id" := briefing_id;
     "id" := VInt 7;
     "excerpt" := VStr "Morning briefing";
     "date" := VDatetime noon;
     "content" := timeline ]}.

Definition archive : memory :=
  {| colls := {[ "post" := [briefing] ]}; next := (oid1 + 2)%N |}.

(** A document without [_id] and without datetimes. *)
Definition draft : dict :=
  {[ "title" := VStr "Draft"; "tags" := VList [VStr "wip"] ]}.

(** [markets] with another identifier and other fields outside the six
    of a post. *)
Definition markets_copy : dict :=
  {[ "_id" := briefing_id;
     "id" := VInt 3;
     "title" := VStr "Global Markets Shift";
     "region" := VStr "Europe";
     "author" := VStr "desk" ]}.

(** A store whose lookup answers a document without fields. *)
Definition hollow : store unit := λ X e,
  match e in storeE X return unit → outcome X * unit with
  | list_collection_names _ => λ s, (Returns [], s)
  | get_documents _ _ _ => λ s, (Returns [], s)
  | create_document _ _ => λ s, (Returns EmptyString, s)
  | find_one _ _ _ => λ s, (Returns (Some ∅), s)
  | delete_one _ _ _ => λ s, (Returns 0, s)
  end.

(** A store with a dozen collections. *)
Definition dozen : store unit := λ X e,
  match e in storeE X return unit → outcome X * unit with
  | list_collection_names _ =>
      λ s, (Returns ["a"; "b"; "c"; "d"; "e"; "f"; "g"; "h"; "i"; "j";
                     "k"; "l"], s)
  | get_documents _ _ _ => λ s, (Returns [], s)
  | create_document _ _ => λ s, (Returns EmptyString, s)
  | find_one _ _ _ => λ s, (Returns None, s)
  | delete_one _ _ _ => λ s, (Returns 0, s)
  end.
End Sample.

(** * Properties *)

(** ** The normalizer *)

Section normalize_facts.
Context `{Builtins}.

Lemma iso_value_not_datetime (v : value) :
  is_datetime v = false → iso_value v = v.
Proof. by destruct v. Qed.

(** The loop, item by item: the keys it has visited hold converted
    values, the others the values they had. *)
Lemma foldl_convert_item_lookup (l : list (string * value)) (d : dict) k :
  NoDup l.*1 →
  (∀ i x, (i, x) ∈ l → d !! i = Some x) →
  foldl convert_item d l !! k =
    if decide (k ∈ l.*1) then iso_value <$> d !! k else d !! k.
Proof.
  revert d. induction l as [|[i x] l IH]; intros d Hnd Hl.
  { by rewrite decide_False by apply not_elem_of_nil. }
  apply NoDup_cons in Hnd as [Hi Hnd]. cbn [foldl fmap list_fmap fst] in *.
  rewrite IH; [|done|].
  - assert (d !! i = Some x) as Hix by (apply Hl; left).
    destruct (decide (k = i)) as [->|Hne].
    + rewrite decide_False by done.
      rewrite (decide_True _ _ (list_elem_of_here _ _)), Hix.
      unfold convert_item; destruct x; simpl; try done.
      by rewrite lookup_insert_eq.
    + assert (convert_item d (i, x) !! k = d !! k) as ->.
      { unfold convert_item; destruct x; simpl; try done.
        by rewrite lookup_insert_ne. }
      destruct (decide (k ∈ l.*1)) as [Hk|Hk].
      * by rewrite decide_True by (by right).
      * rewrite decide_False; [done|].
        intros [?|?]%elem_of_cons; done.
  - intros j y Hj.
    assert (j ≠ i).
    { intros ->. apply Hi, list_elem_of_fmap. by exists (i, y). }
    rewrite <-(Hl j y) by (by right).
    unfold convert_item; destruct x; simpl; try done.
    by rewrite lookup_insert_ne.
Qed.

(** The loop over the items of [d] converts every value of [d]. *)
Lemma foldl_convert_item_fmap (d : dict) :
  foldl convert_item d (map_to_list d) = iso_value <$> d.
Proof.
  apply map_eq; intros k.
  rewrite foldl_convert_item_lookup, lookup_fmap.
  - case_decide as Hk; [done|].
    destruct (d !! k) as [v|] eqn:Hv; [|done].
    destruct Hk. apply list_elem_of_fmap. exists (k, v); split; [done|].
    by apply elem_of_map_to_list.
  - apply NoDup_fst_map_to_list.
  - intros i x. apply elem_of_map_to_list.
Qed.

(** [_normalize] on a dictionary with items, in closed form. *)
Lemma normalize_Some (d : dict) :
  d ≠ ∅ →
  _normalize (Some d) =
    Some (iso_value <$>
            match d !! "_id" with
            | Some v => <["id" := VStr (str v)]> (delete "_id" d)
            | None => d
            end).
Proof.
  intros Hd. unfold _normalize, falsy.
  rewrite bool_decide_eq_false_2 by done. simpl.
  by rewrite foldl_convert_item_fmap.
Qed.

(** [_normalize] returns what is falsy as it is. *)
Lemma normalize_falsy (doc : option dict) :
  falsy doc = true → _normalize doc = doc.
Proof. unfold _normalize. by intros ->. Qed.

(** A dictionary always comes back as a dictionary. *)
Lemma normalize_is_Some (d : dict) : is_Some (_normalize (Some d)).
Proof.
  destruct (decide (d = ∅)) as [->|Hd].
  - by rewrite normalize_falsy.
  - by rewrite normalize_Some.
Qed.

(** The result has no key [_id]. *)
Lemma normalize_no__id (d nd : dict) :
  _normalize (Some d) = Some nd → nd !! "_id" = None.
Proof.
  destruct (decide (d = ∅)) as [->|Hd].
  - rewrite normalize_falsy by done. by intros [= <-].
  - rewrite normalize_Some by done. intros [= <-].
    rewrite lookup_fmap.
    destruct (d !! "_id") as [v|] eqn:Hv.
    + by rewrite lookup_insert_ne, lookup_delete_eq.
    + by rewrite Hv.
Qed.

(** With [_id] in the document, [id] is its [str]. *)
Lemma normalize_id (d nd : dict) v :
  d !! "_id" = Some v →
  _normalize (Some d) = Some nd → nd !! "id" = Some (VStr (str v)).
Proof.
  intros Hv. rewrite normalize_Some by (by intros ->).
  intros [= <-]. by rewrite Hv, lookup_fmap, lookup_insert_eq.
Qed.

(** Any other field holds its value, converted when it is a datetime. *)
Lemma normalize_other (d nd : dict) k :
  k ≠ "_id" → (d !! "_id" = None ∨ k ≠ "id") →
  _normalize (Some d) = Some nd → nd !! k = iso_value <$> d !! k.
Proof.
  intros Hk Hid.
  destruct (decide (d = ∅)) as [->|Hd].
  - rewrite normalize_falsy by done. by intros [= <-].
  - rewrite normalize_Some by done. intros [= <-].
    rewrite lookup_fmap.
    destruct (d !! "_id") as [v|] eqn:Hv; [|done].
    destruct Hid as [|Hid]; [done|].
    by rewrite lookup_insert_ne, lookup_delete_ne.
Qed.
End normalize_facts.

(** ** The normalizer on the heap *)

Section heap_facts.
Context `{Builtins}.

Lemma bind_Some {A B} (c : Heap.cmd A) (k : A → Heap.cmd B) h a h' :
  c h = Some (a, h') → (c ≫= k) h = k a h'.
Proof. unfold mbind, Heap.cmd_bind. by intros ->. Qed.

Lemma load_Some (l : Heap.loc) (c : dict) (h : Heap.heap) :
  h !! l = Some c → Heap.load l h = Some (c, h).
Proof. unfold Heap.load. by intros ->. Qed.

Lemma setitem_Some (l : Heap.loc) (c : dict) k v (h : Heap.heap) :
  h !! l = Some c →
  Heap.setitem l k v h = Some ((), <[l := <[k := v]> c]> h).
Proof. unfold Heap.setitem. by intros ->. Qed.

(** The loop writes the object [l] only, and leaves there what the loop
    on the contents leaves. *)
Lemma for_each_convert (items : list (string * value)) (l : Heap.loc)
    (c : dict) (h : Heap.heap) :
  h !! l = Some c →
  Heap.for_each items (λ kv,
    match kv.2 with
    | VDatetime t => Heap.setitem l kv.1 (VStr (isoformat t))
    | _ => mret ()
    end) h = Some ((), <[l := foldl convert_item c items]> h).
Proof.
  revert c h. induction items as [|[k v] items IH]; intros c h Hl; simpl.
  { by rewrite insert_id. }
  destruct v; simpl;
    try (erewrite (bind_Some (mret ())); [|reflexivity]; by apply IH).
  erewrite bind_Some; [|by apply setitem_Some].
  rewrite (IH (<[k := VStr (isoformat t)]> c)) by apply lookup_insert_eq.
  by rewrite insert_insert_eq.
Qed.

(** C8. The normalizer returns a new mapping and never mutates its
    input.  An absent document is returned as it is, and so is an empty
    one, with the heap as it was.  Otherwise the result is the address of
    an object that did not exist before, holding the normalized
    contents, and every object that existed, the input among them,
    holds after the call the field names and values it held before. *)
Theorem normalize_never_mutates_input :
  (∀ h : Heap.heap, Heap._normalize None h = Some (None, h)) ∧
  (∀ (h : Heap.heap) (l : Heap.loc) (c : dict),
     h !! l = Some c →
     ∃ r h',
       Heap._normalize (Some l) h = Some (r, h') ∧
       h' !! l = Some c ∧
       (∀ l0, is_Some (h !! l0) → h' !! l0 = h !! l0) ∧
       (c = ∅ → r = Some l ∧ h' = h) ∧
       (c ≠ ∅ →
        ∃ l' nd, r = Some l' ∧ h !! l' = None ∧
                 _normalize (Some c) = Some nd ∧
                 h' = <[l' := nd]> h)).
Proof.
  split; [done|]. intros h l c Hl. unfold Heap._normalize.
  erewrite bind_Some; [|by apply load_Some].
  case_bool_decide as Hc.
  { exists (Some l), h. by repeat split. }
  set (l' := fresh (dom h)).
  assert (h !! l' = None) as Hl' by apply not_elem_of_dom, is_fresh.
  assert (l ≠ l') as Hne by congruence.
  assert (Heap.dict_copy l h = Some (l', <[l' := c]> h)) as Hcopy.
  { unfold Heap.dict_copy. by rewrite Hl. }
  erewrite bind_Some; [|exact Hcopy].
  erewrite bind_Some; [|apply load_Some, lookup_insert_eq].
  set (c1 := match c !! "_id" with
             | Some v => <["id" := VStr (str v)]> (delete "_id" c)
             | None => c
             end).
  assert ((if bool_decide (is_Some (c !! "_id"))
           then v ← Heap.pop l' "_id"; Heap.setitem l' "id" (VStr (str v))
           else mret ()) (<[l' := c]> h) = Some ((), <[l' := c1]> h)) as Hid.
  { subst c1. destruct (c !! "_id") as [v|] eqn:Hv.
    - rewrite bool_decide_eq_true_2 by done.
      erewrite bind_Some;
        [|unfold Heap.pop; by rewrite lookup_insert_eq; simpl; rewrite Hv].
      erewrite setitem_Some by apply lookup_insert_eq.
      by rewrite !insert_insert_eq.
    - rewrite bool_decide_eq_false_2 by (by intros [? ?]). done. }
  erewrite bind_Some; [|exact Hid].
  erewrite bind_Some; [|apply load_Some, lookup_insert_eq].
  erewrite bind_Some; [|apply for_each_convert, lookup_insert_eq].
  rewrite insert_insert_eq.
  eexists _, _; split; [reflexivity|].
  split; [by rewrite lookup_insert_ne|].
  split; [|split; [done|]].
  - intros l0 [? Hl0]. rewrite lookup_insert_ne; [done|congruence].
  - intros _. eexists l', _. repeat split; [done|].
    unfold _normalize, falsy.
    by rewrite bool_decide_eq_false_2.
Qed.
End heap_facts.

(** ** Strings *)

Lemma str_len_slice_to (n : nat) (s : string) :
  (str_len (str_slice_to n s) ≤ n)%nat.
Proof.
  revert n. induction s as [|a s IH]; intros n; simpl; [lia|].
  destruct (is_continuation a) eqn:Ha; simpl; rewrite ?Ha; [done|].
  destruct n as [|n]; simpl; rewrite ?Ha; [lia|].
  specialize (IH n). lia.
Qed.

Lemma str_slice_to_prefix (n : nat) (s : string) :
  ∃ rest, s = str_slice_to n s +:+ rest.
Proof.
  revert n. induction s as [|a s IH]; intros n; simpl; [by exists EmptyString|].
  destruct (is_continuation a).
  - destruct (IH n) as [rest Hrest]. exists rest.
    change (String a s = String a (str_slice_to n s +:+ rest)). by f_equal.
  - destruct n as [|n]; [by eexists|].
    destruct (IH n) as [rest Hrest]. exists rest.
    change (String a s = String a (str_slice_to n s +:+ rest)). by f_equal.
Qed.

Lemma str_len_slice_to_min (n : nat) (s : string) :
  str_len (str_slice_to n s) = (n `min` str_len s)%nat.
Proof.
  revert n. induction s as [|a s IH]; intros n; simpl; [lia|].
  destruct (is_continuation a) eqn:Ha; simpl; rewrite ?Ha; [done|].
  destruct n as [|n]; simpl; rewrite ?Ha; [done|].
  by rewrite IH.
Qed.

Lemma str_slice_to_short (n : nat) (s : string) :
  (str_len s ≤ n)%nat → str_slice_to n s = s.
Proof.
  revert n. induction s as [|a s IH]; intros n; simpl; [done|].
  destruct (is_continuation a); [intros ?; f_equal; by apply IH|].
  destruct n as [|n]; [lia|]. intros ?. f_equal. apply IH. lia.
Qed.

Lemma str_slice_to_cut (n : nat) (s : string) :
  ∃ rest,
    s = str_slice_to n s +:+ rest ∧
    match rest with
    | EmptyString => True
    | String a _ => is_continuation a = false
    end.
Proof.
  revert n. induction s as [|a s IH]; intros n; simpl;
    [by exists EmptyString|].
  destruct (is_continuation a) eqn:Ha.
  - destruct (IH n) as (rest & Hrest & Hcut). exists rest. split; [|done].
    change (String a s = String a (str_slice_to n s +:+ rest)). by f_equal.
  - destruct n as [|n]; [exists (String a s); by split|].
    destruct (IH n) as (rest & Hrest & Hcut). exists rest. split; [|done].
    change (String a s = String a (str_slice_to n s +:+ rest)). by f_equal.
Qed.

(** ** The handlers on a store *)

Section handler_facts.
Context `{Builtins, Collaborators}.

(** A valid identifier is one the constructor accepts. *)
Lemma is_valid_ObjectId_new (post_id : string) :
  is_valid post_id = true → is_Some (ObjectId_new post_id).
Proof.
  unfold is_valid. destruct post_id; [done|].
  by intros ?%bool_decide_eq_true.
Qed.

(** [get_post], path by path. *)
Lemma exec_get_post {σ} (st : store σ) (s : σ) db post_id :
  exec st (get_post db post_id) s =
    if is_valid post_id then
      match db, ObjectId_new post_id with
      | None, _ =>
          (Raise (HTTPException 500 "'NoneType' object is not subscriptable"),
           s, [])
      | Some collection, None =>
          (Raise (HTTPException 500 (InvalidId_str post_id)), s, [])
      | Some collection, Some oid =>
          let e := find_one collection "post" {[ "_id" := VObjectId oid ]} in
          (match (st _ e s).1 with
           | Returns doc =>
               if falsy doc then Raise (HTTPException 404 "Not found")
               else Return (_normalize doc)
           | Raises m => Raise (HTTPException 500 m)
           end, (st _ e s).2, [existT _ e])
      end
    else (Raise (HTTPException 400 "Invalid id"), s, []).
Proof.
  unfold get_post.
  destruct (is_valid post_id); [|reflexivity].
  destruct db as [collection|]; [|reflexivity].
  unfold ObjectId_.
  destruct (ObjectId_new post_id) as [oid|]; [|reflexivity].
  cbn. destruct (st _ _ s) as [[doc|m] s']; [|reflexivity].
  cbn. by destruct (falsy doc).
Qed.

(** [delete_post], path by path. *)
Lemma exec_delete_post {σ} (st : store σ) (s : σ) db post_id :
  exec st (delete_post db post_id) s =
    if is_valid post_id then
      match db, ObjectId_new post_id with
      | None, _ =>
          (Raise (HTTPException 500 "'NoneType' object is not subscriptable"),
           s, [])
      | Some collection, None =>
          (Raise (HTTPException 500 (InvalidId_str post_id)), s, [])
      | Some collection, Some oid =>
          let e := delete_one collection "post"
                     {[ "_id" := VObjectId oid ]} in
          (match (st _ e s).1 with
           | Returns deleted_count =>
               if bool_decide (deleted_count = 0)
               then Raise (HTTPException 404 "Not found")
               else Return {[ "status" := "deleted" ]}
           | Raises m => Raise (HTTPException 500 m)
           end, (st _ e s).2, [existT _ e])
      end
    else (Raise (HTTPException 400 "Invalid id"), s, []).
Proof.
  unfold delete_post.
  destruct (is_valid post_id); [|reflexivity].
  destruct db as [collection|]; [|reflexivity].
  unfold ObjectId_.
  destruct (ObjectId_new post_id) as [oid|]; [|reflexivity].
  cbn. destruct (st _ _ s) as [[n|m] s']; [|reflexivity].
  cbn. by case_bool_decide.
Qed.

(** C4. [GET /api/posts/{id}]: an identifier that is not well formed
    gives 400 and no store call; a well-formed one for which the lookup
    finds no document gives 404; one for which it finds a document
    gives 200 with the normalized document, every field of the stored
    document other than [_id] and [id] included. *)
Theorem get_post_responses {σ} (st : store σ) (s : σ) (db : option Database)
    (post_id : string) :
  (is_valid post_id = false →
   exec st (get_post db post_id) s =
     (Raise (HTTPException 400 "Invalid id"), s, [])) ∧
  (∀ collection,
     db = Some collection → is_valid post_id = true →
     ∃ oid,
       ObjectId_new post_id = Some oid ∧
       let e := find_one collection "post" {[ "_id" := VObjectId oid ]} in
       (∀ s', st _ e s = (Returns None, s') →
          exec st (get_post db post_id) s =
            (Raise (HTTPException 404 "Not found"), s', [existT _ e])) ∧
       (∀ d s', st _ e s = (Returns (Some d), s') → d ≠ ∅ →
          ∃ nd,
            exec st (get_post db post_id) s =
              (Return (Some nd), s', [existT _ e]) ∧
            status_of (exec st (get_post db post_id) s).1.1 = 200 ∧
            _normalize (Some d) = Some nd ∧
            ∀ k, k ≠ "_id" → k ≠ "id" → nd !! k = iso_value <$> d !! k)).
Proof.
  rewrite exec_get_post. split; [by intros ->|].
  intros collection -> Hvalid. rewrite Hvalid.
  destruct (is_valid_ObjectId_new _ Hvalid) as [oid Hoid].
  exists oid. rewrite Hoid. split; [done|]. cbv zeta. split.
  - by intros s' ->.
  - intros d s' -> Hd. simpl.
    rewrite bool_decide_eq_false_2 by done.
    destruct (normalize_is_Some d) as [nd Hnd].
    exists nd. rewrite Hnd. do 3 (split; [done|]).
    intros k ??. eapply normalize_other; eauto.
Qed.

(** C5. [DELETE /api/posts/{id}]: an identifier that is not well formed
    gives 400; a well-formed one whose delete removes no document gives
    404; a delete that removes a document gives 200 with
    [{"status": "deleted"}]. *)
Theorem delete_post_responses {σ} (st : store σ) (s : σ)
    (db : option Database) (post_id : string) :
  (is_valid post_id = false →
   exec st (delete_post db post_id) s =
     (Raise (HTTPException 400 "Invalid id"), s, [])) ∧
  (∀ collection,
     db = Some collection → is_valid post_id = true →
     ∃ oid,
       ObjectId_new post_id = Some oid ∧
       let e := delete_one collection "post" {[ "_id" := VObjectId oid ]} in
       (∀ s', st _ e s = (Returns 0, s') →
          exec st (delete_post db post_id) s =
            (Raise (HTTPException 404 "Not found"), s', [existT _ e]) ∧
          status_of (exec st (delete_post db post_id) s).1.1 = 404) ∧
       (∀ deleted_count s',
          st _ e s = (Returns deleted_count, s') → deleted_count ≠ 0 →
          exec st (delete_post db post_id) s =
            (Return {[ "status" := "deleted" ]}, s', [existT _ e]) ∧
          status_of (exec st (delete_post db post_id) s).1.1 = 200)).
Proof.
  rewrite exec_delete_post. split; [by intros ->|].
  intros collection -> Hvalid. rewrite Hvalid.
  destruct (is_valid_ObjectId_new _ Hvalid) as [oid Hoid].
  exists oid. rewrite Hoid. split; [done|]. cbv zeta. split.
  - by intros s' ->.
  - intros n s' -> Hn. simpl. by rewrite bool_decide_eq_false_2.
Qed.

(** C6. [POST /api/posts]: when the insert returns, the handler returns
    the identifier it was given as [{"id": inserted_id}]; when the
    insert raises, the handler responds 500 with the [str] of the
    exception as the detail. *)
Theorem create_post_responses {σ} (st : store σ) (s : σ) (post : Post) :
  let e := create_document "post" post in
  (∀ inserted_id s', st _ e s = (Returns inserted_id, s') →
     exec st (create_post post) s =
       (Return {[ "id" := inserted_id ]}, s', [existT _ e])) ∧
  (∀ message s', st _ e s = (Raises message, s') →
     exec st (create_post post) s =
       (Raise (HTTPException 500 message), s', [existT _ e]) ∧
     status_of (exec st (create_post post) s).1.1 = 500).
Proof.
  intros e. unfold create_post. cbn. fold e.
  split; [intros x s' ->|intros m s' ->]; done.
Qed.

(** C7. [GET /test] always returns a body, never an HTTP error.  Without
    a store handle the body says "Not Configured" and no store call is
    made.  When the enumeration of the collection names raises, the
    body carries the message cut to 80 characters: the whole message
    when it has at most 80 characters, and otherwise its first 80
    characters, no more and no fewer, the cut falling between two
    characters.  When it returns, the body lists the first 10 names, at
    most. *)
Theorem test_database_always_returns {σ} (st : store σ) (s : σ)
    (db : option Database) :
  ∃ body s' calls,
    exec st (test_database db) s = (Return body, s', calls) ∧
    status_of (exec st (test_database db) s).1.1 = 200 ∧
    backend body = "✅ Running" ∧
    (db = None →
     database body = "❌ Not Configured" ∧ calls = [] ∧ s' = s) ∧
    (∀ handle, db = Some handle →
       let e := list_collection_names handle in
       calls = [existT _ e] ∧
       (∀ message s1, st _ e s = (Raises message, s1) →
          ∃ shown rest,
            database body = "⚠️ Connected but error: " +:+ shown ∧
            shown = str_slice_to 80 message ∧
            message = shown +:+ rest ∧
            (str_len shown ≤ 80)%nat ∧
            str_len shown = (80 `min` str_len message)%nat ∧
            ((str_len message ≤ 80)%nat → shown = message) ∧
            match rest with
            | EmptyString => True
            | String a _ => is_continuation a = false
            end) ∧
       (∀ names s1, st _ e s = (Returns names, s1) →
          database body = "✅ Connected" ∧
          collections body = take 10 names ∧
          (length (collections body) ≤ 10)%nat)).
Proof.
  destruct db as [handle|]; cbn.
  - destruct (st _ (list_collection_names handle) s) as [[names|m] s1] eqn:E;
      cbn; eexists _, _, _; (split; [reflexivity|]);
      (do 3 (split; [done|])); intros ? [= <-]; rewrite E;
      (split; [done|]); split; try done.
    + intros ?? [= <- <-]. do 2 (split; [done|]).
      cbn. rewrite length_take. lia.
    + intros ?? [= <- <-].
      destruct (str_slice_to_cut 80 m) as (rest & Hrest & Hcut).
      eexists _, rest. do 3 (split; [done|]).
      split; [apply str_len_slice_to|].
      split; [apply str_len_slice_to_min|].
      split; [apply str_slice_to_short|exact Hcut].
  - eexists _, _, _. by repeat split.
Qed.
End handler_facts.

(** ** The identifier and the timestamps in the normalized document *)

Section renaming.
Context `{Builtins}.

(** C9. A document with both [_id] and [id] comes back with the [str]
    of [_id] under [id]: the value [id] had is gone, and the result is
    the one for the document without its [id]. *)
Theorem normalize_discards_existing_id (d : dict) (v old : value) :
  d !! "_id" = Some v → d !! "id" = Some old →
  ∃ nd,
    _normalize (Some d) = Some nd ∧
    nd !! "id" = Some (VStr (str v)) ∧
    nd !! "_id" = None ∧
    _normalize (Some (delete "id" d)) = Some nd.
Proof.
  intros Hv Hold.
  assert (delete "id" d !! "_id" = Some v) as Hv'
    by by rewrite lookup_delete_ne.
  rewrite !normalize_Some by (by intros E; rewrite E in * ).
  rewrite Hv, Hv'. eexists; split; [done|].
  rewrite !lookup_fmap, lookup_insert_eq, lookup_insert_ne by done.
  rewrite lookup_delete_eq. do 2 (split; [done|]).
  by rewrite (delete_delete _ "_id" "id"), insert_delete_eq.
Qed.

(** C10. A field other than the identifier that holds a datetime comes
    back as its ISO string; one that holds a list or a dictionary comes
    back as it is, whatever datetimes are inside it, and so does every
    value that is not itself a datetime. *)
Theorem normalize_converts_top_level_only (d : dict) (k : string)
    (v : value) :
  d !! k = Some v → k ≠ "_id" → (d !! "_id" = None ∨ k ≠ "id") →
  ∃ nd,
    _normalize (Some d) = Some nd ∧
    (∀ t, v = VDatetime t → nd !! k = Some (VStr (isoformat t))) ∧
    (∀ l, v = VList l → nd !! k = Some (VList l)) ∧
    (∀ m, v = VDict m → nd !! k = Some (VDict m)) ∧
    (is_datetime v = false → nd !! k = Some v).
Proof.
  intros Hv Hk Hid.
  destruct (normalize_is_Some d) as [nd Hnd]. exists nd.
  split; [done|].
  rewrite (normalize_other d nd k) by done. rewrite Hv. simpl.
  repeat split; try by intros ? ->.
  intros ?. by rewrite iso_value_not_datetime.
Qed.
End renaming.

(** ** The list endpoint *)

Section list_facts.
Context `{Builtins, Collaborators}.

(** [nd.get(k, default)] for a field the normalizer does not rename,
    from the stored document. *)
Lemma get_normalize (d nd : dict) (k : string) (default_ : value) :
  k ≠ "_id" → k ≠ "id" →
  _normalize (Some d) = Some nd →
  get nd k default_ = default default_ (iso_value <$> d !! k).
Proof.
  intros ?? Hnd. unfold get.
  rewrite (normalize_other d nd k) by auto. by destruct (d !! k).
Qed.

(** The six keys of a projected post. *)
Lemma dom_post_dict (nd : dict) :
  dom (post_dict nd) =
    ({[ "title"; "region"; "excerpt"; "date"; "tags"; "content" ]}
       : gset string).
Proof.
  unfold post_dict. rewrite !dom_insert_L, dom_singleton_L. set_solver.
Qed.

(** The loop appends one projected post for each document, in order,
    and does not raise. *)
Lemma append_posts_Forall2 (docs normalized : list dict) :
  ∃ posts,
    append_posts docs normalized = Return (normalized ++ posts)%list ∧
    Forall2 (λ d p, ∃ nd, _normalize (Some d) = Some nd ∧ p = post_dict nd)
            docs posts.
Proof.
  revert normalized. induction docs as [|d docs IH]; intros normalized.
  { exists []. by rewrite app_nil_r. }
  simpl. destruct (normalize_is_Some d) as [nd Hnd]. rewrite Hnd.
  destruct (IH (normalized ++ [post_dict nd])%list) as (posts & -> & Hall).
  exists (post_dict nd :: posts). rewrite <-app_assoc. split; [done|].
  constructor; eauto.
Qed.

(** [list_posts] makes one store call, with the filter of [q]. *)
Lemma exec_list_posts {σ} (st : store σ) (s : σ) q limit :
  let e := get_documents "post" (filter_dict q) limit in
  exec st (list_posts q limit) s =
    (match (st _ e s).1 with
     | Returns docs => append_posts docs []
     | Raises m => Raise (Exception m)
     end, (st _ e s).2, [existT _ e]).
Proof.
  intros e. unfold list_posts. cbn. fold e.
  by destruct (st _ e s) as [[docs|m] s'].
Qed.

(** C3, as the code has it.  [GET /api/posts] maps the documents the
    store returns, in order, to dictionaries with the six keys of a
    post.  Each holds the value of the normalized document: for a field
    the document lacks, the empty string for [title], [region] and
    [excerpt], the
    empty list for [tags] and [content] and [None] for [date]; for a
    field it has, its value, as its ISO string when it is a datetime.
    It does not raise, and an empty result gives the empty list. *)
Theorem list_posts_projection {σ} (st : store σ) (s : σ) (q : option string)
    (limit : Z) (docs : list dict) (s' : σ) :
  let e := get_documents "post" (filter_dict q) limit in
  st _ e s = (Returns docs, s') →
  ∃ posts,
    exec st (list_posts q limit) s = (Return posts, s', [existT _ e]) ∧
    (docs = [] → posts = []) ∧
    Forall2 (λ d p,
      let field k default_ := Some (default default_ (iso_value <$> d !! k)) in
      dom p = ({[ "title"; "region"; "excerpt"; "date"; "tags"; "content" ]}
                 : gset string) ∧
      p !! "title" = field "title" (VStr EmptyString) ∧
      p !! "region" = field "region" (VStr EmptyString) ∧
      p !! "excerpt" = field "excerpt" (VStr EmptyString) ∧
      p !! "date" = field "date" VNone ∧
      p !! "tags" = field "tags" (VList []) ∧
      p !! "content" = field "content" (VList [])) docs posts.
Proof.
  intros e He. rewrite exec_list_posts. fold e. rewrite He. simpl.
  destruct (append_posts_Forall2 docs []) as (posts & -> & Hall).
  exists posts. split; [done|]. split.
  { intros ->. by apply Forall2_nil_inv_l in Hall. }
  eapply Forall2_impl; [exact Hall|]. clear.
  intros d p (nd & Hnd & ->). split; [apply dom_post_dict|].
  unfold post_dict.
  rewrite !(get_normalize d nd) by done.
  by repeat split; simplify_map_eq.
Qed.

(** C1, as the code has it.  No output has a field [_id].  The
    normalizer removes it and, when the document has it, puts its [str]
    under [id]; [GET /api/posts/{id}] returns that dictionary.  The
    posts of [GET /api/posts] have neither [_id] nor [id], and the
    bodies of [POST] and [DELETE] have no [_id]. *)
Theorem identifier_in_output :
  (∀ d nd : dict,
     _normalize (Some d) = Some nd →
     nd !! "_id" = None ∧
     ∀ v, d !! "_id" = Some v → nd !! "id" = Some (VStr (str v))) ∧
  (∀ σ (st : store σ) s db post_id body s' calls,
     exec st (get_post db post_id) s = (Return body, s', calls) →
     ∃ collection oid (d nd : dict),
       st _ (find_one collection "post" {[ "_id" := VObjectId oid ]}) s =
         (Returns (Some d), s') ∧
       body = Some nd ∧
       _normalize (Some d) = Some nd ∧
       nd !! "_id" = None ∧
       ∀ v, d !! "_id" = Some v → nd !! "id" = Some (VStr (str v))) ∧
  (∀ σ (st : store σ) s q limit posts s' calls,
     exec st (list_posts q limit) s = (Return posts, s', calls) →
     Forall (λ p : dict, p !! "_id" = None ∧ p !! "id" = None) posts) ∧
  (∀ σ (st : store σ) s post body s' calls,
     exec st (create_post post) s = (Return body, s', calls) →
     body !! "_id" = None) ∧
  (∀ σ (st : store σ) s db post_id body s' calls,
     exec st (delete_post db post_id) s = (Return body, s', calls) →
     body !! "_id" = None).
Proof.
  assert (∀ d nd : dict,
     _normalize (Some d) = Some nd →
     nd !! "_id" = None ∧
     ∀ v, d !! "_id" = Some v → nd !! "id" = Some (VStr (str v))) as Hnorm.
  { intros d nd Hnd. split; [by eapply normalize_no__id|].
    intros v Hv. by eapply normalize_id. }
  split; [done|]. split; [|split; [|split]].
  - intros σ st s db post_id body s' calls. rewrite exec_get_post.
    destruct (is_valid post_id); [|done].
    destruct db as [collection|]; [|done].
    destruct (ObjectId_new post_id) as [oid|]; [|done]. cbv zeta.
    destruct (st _ _ s) as [[[d|]|m] s1] eqn:E; simpl; try done.
    case_bool_decide; [done|]. intros [= <- <- <-].
    destruct (normalize_is_Some d) as [nd Hnd].
    exists collection, oid, d, nd. rewrite E.
    destruct (Hnorm d nd Hnd). by repeat split.
  - intros σ st s q limit posts s' calls. rewrite exec_list_posts.
    cbv zeta. destruct (st _ _ s) as [[docs|m] s1]; simpl; [|done].
    destruct (append_posts_Forall2 docs []) as (ps & -> & Hall).
    intros [= <- <- <-]. apply Forall_forall. intros p Hp.
    apply list_elem_of_lookup in Hp as [i Hp].
    destruct (Forall2_lookup_r _ _ _ _ _ Hall Hp) as (d & _ & nd & _ & ->).
    unfold post_dict. by split; simplify_map_eq.
  - intros σ st s post body s' calls. unfold create_post. cbn.
    destruct (st _ _ s) as [[x|m] s1]; cbn; [|done].
    intros [= <- <- <-]. by simplify_map_eq.
  - intros σ st s db post_id body s' calls. rewrite exec_delete_post.
    destruct (is_valid post_id); [|done].
    destruct db as [collection|]; [|done].
    destruct (ObjectId_new post_id) as [oid|]; [|done]. cbv zeta.
    destruct (st _ _ s) as [[n|m] s1]; simpl; [|done].
    case_bool_decide; [done|]. intros [= <- <- <-]. by simplify_map_eq.
Qed.
End list_facts.

(** ** The filter of the list endpoint *)

(** [starts_with] and [contains] are the prefix and the substring of
    strings. *)
Lemma starts_with_prefix (q s : string) :
  starts_with q s = true ↔ ∃ post, s = q +:+ post.
Proof.
  revert s. induction q as [|a q IH]; intros s; simpl.
  { split; [by exists s|done]. }
  destruct s as [|b s]; [split; [done|by intros [? [=]]]|].
  rewrite andb_true_iff, IH. split.
  - intros [->%Ascii.eqb_eq [post ->]]. by exists post.
  - intros [post [= -> ->]]. split; [apply Ascii.eqb_refl|by exists post].
Qed.

Lemma contains_substring (q s : string) :
  contains q s = true ↔ ∃ pre post, s = pre +:+ q +:+ post.
Proof.
  induction s as [|b s IH]; simpl; rewrite orb_true_iff, starts_with_prefix.
  - split.
    + intros [[post ->]|[=]]. by exists EmptyString, post.
    + intros (pre & post & Hs). left. destruct pre; [by exists post|done].
  - rewrite IH. split.
    + intros [[post ->]|(pre & post & ->)].
      * by exists EmptyString, post.
      * by exists (String b pre), post.
    + intros ([|b' pre] & post & Hs).
      * left. by exists post.
      * right. injection Hs as -> ->. by exists pre, post.
Qed.

Section filter_facts.
Context `{Builtins, Collaborators, Regex}.

(** What the store makes of [{field: regex q}]. *)
Lemma matches_regex_field (doc : dict) (field q : string) :
  matches_fields doc {[ field := regex q ]} =
    regex_field q "i" (doc !! field).
Proof.
  unfold matches_fields. rewrite map_to_list_singleton. simpl.
  by rewrite andb_true_r.
Qed.

(** The filter of a [q] that is not empty, field by field. *)
Lemma matches_filter_dict (a : ascii) (q' : string) (doc : dict) :
  let q := String a q' in
  matches (filter_dict (Some q)) doc =
    regex_field q "i" (doc !! "title")
    || regex_field q "i" (doc !! "region")
    || regex_field q "i" (doc !! "excerpt")
    || regex_field q "i" (doc !! "tags").
Proof.
  intros q. unfold matches, filter_dict. subst q. cbv beta iota.
  rewrite map_to_list_singleton. cbn [forallb fst snd existsb].
  rewrite bool_decide_eq_true_2 by done.
  rewrite !matches_regex_field.
  by rewrite orb_false_r, andb_true_r, !orb_assoc.
Qed.

(** With an engine that reads [q] as plain text, a field matches when
    it contains [q]. *)
Lemma regex_field_contains (q : string) (field : option value) :
  (∀ s, regex_search q "i" s = contains_ci q s) →
  regex_field q "i" field = field_contains_ci q field.
Proof.
  intros Hq. destruct field as [[| | |s| | |l|]|]; simpl; try done.
  induction l as [|x l IH]; simpl; [done|].
  rewrite IH. destruct x; try done. by rewrite Hq.
Qed.

(** C2, as the code has it.  Without [q], or with the empty [q], the
    filter is the empty dictionary, which matches every document.
    Otherwise it is the [$or] of four filters, one for each of [title],
    [region], [excerpt] and [tags], each the regular expression [q], as
    given, with the option [i]: it matches a document exactly when the
    engine of the store finds the pattern [q] in one of the four fields.
    For a [q] that the engine reads as plain text, as it does a [q]
    without metacharacters, that is exactly when one of the four fields
    contains [q] as a substring, whatever the case of the letters.  This
    is the filter [list_posts] hands to the store. *)
Theorem filter_dict_matches :
  filter_dict None = ∅ ∧
  filter_dict (Some EmptyString) = ∅ ∧
  (∀ doc : dict, matches ∅ doc = true) ∧
  (∀ (a : ascii) (q' : string) (doc : dict),
     let q := String a q' in
     filter_dict (Some q) =
       {[ "$or" := VList [ VDict {[ "title" := regex q ]};
                           VDict {[ "region" := regex q ]};
                           VDict {[ "excerpt" := regex q ]};
                           VDict {[ "tags" := regex q ]} ] ]} ∧
     regex q = VDict {[ "$regex" := VStr q; "$options" := VStr "i" ]} ∧
     matches (filter_dict (Some q)) doc =
       regex_field q "i" (doc !! "title")
       || regex_field q "i" (doc !! "region")
       || regex_field q "i" (doc !! "excerpt")
       || regex_field q "i" (doc !! "tags") ∧
     ((∀ s, regex_search q "i" s = contains_ci q s) →
      matches (filter_dict (Some q)) doc =
        field_contains_ci q (doc !! "title")
        || field_contains_ci q (doc !! "region")
        || field_contains_ci q (doc !! "excerpt")
        || field_contains_ci q (doc !! "tags"))) ∧
  (∀ σ (st : store σ) s q limit,
     (exec st (list_posts q limit) s).2 =
       [existT _ (get_documents "post" (filter_dict q) limit)]).
Proof.
  split; [done|]. split; [done|]. split.
  { intros doc. unfold matches. by rewrite map_to_list_empty. }
  split.
  - intros a q' doc q. do 2 (split; [done|]).
    split; [apply matches_filter_dict|].
    intros Hq. subst q. rewrite matches_filter_dict.
    by rewrite !regex_field_contains.
  - intros σ st s q limit. by rewrite exec_list_posts.
Qed.
End filter_facts.

(** The engine with dots reads a pattern without dots as plain text. *)
Lemma dot_prefix_no_dot (p s : string) :
  Sample.no_dot p = true → Sample.dot_prefix p s = starts_with p s.
Proof.
  revert s. induction p as [|a p IH]; intros s; simpl; [done|].
  intros [Ha Hp]%andb_true_iff. destruct s as [|b s]; [done|].
  apply negb_true_iff in Ha. rewrite Ha. by rewrite IH.
Qed.

Lemma dot_search_no_dot (p s : string) :
  Sample.no_dot p = true → Sample.dot_search p s = contains p s.
Proof.
  intros Hp. induction s as [|b s IH]; simpl;
    rewrite dot_prefix_no_dot by done; [done|]. by rewrite IH.
Qed.

Lemma no_dot_casefold (p : string) :
  Sample.no_dot (casefold p) = Sample.no_dot p.
Proof.
  induction p as [|a p IH]; simpl; [done|]. rewrite IH. f_equal. f_equal.
  by destruct a as [[] [] [] [] [] [] [] []].
Qed.

Lemma dotted_plain_text (q : string) :
  Sample.no_dot q = true →
  ∀ s, @regex_search Sample.dotted q "i" s = contains_ci q s.
Proof.
  intros Hq s. unfold contains_ci. simpl.
  apply dot_search_no_dot. by rewrite no_dot_casefold.
Qed.

Section filter_examples.
Import Sample.
#[local] Existing Instances bson builtins collaborators dotted.

Lemma filter_dict_matches_witness :
  matches (filter_dict (Some "MARKETS")) markets =
    field_contains_ci "MARKETS" (markets !! "title")
    || field_contains_ci "MARKETS" (markets !! "region")
    || field_contains_ci "MARKETS" (markets !! "excerpt")
    || field_contains_ci "MARKETS" (markets !! "tags") ∧
  field_contains_ci "MARKETS" (markets !! "title") = true.
Proof.
  destruct filter_dict_matches as (_ & _ & _ & Hq & _).
  destruct (Hq "M"%char "ARKETS" markets) as (_ & _ & _ & Hplain).
  split; [|reflexivity].
  apply Hplain. by apply dotted_plain_text.
Defined.

(** The pattern [m.rkets] finds the post of [markets], though none of
    its four fields contains the text [m.rkets]. *)
Lemma filter_dict_pattern_not_substring :
  markets !! "title" = Some (VStr "Global Markets Shift") ∧
  matches (filter_dict (Some "m.rkets")) markets = true ∧
  field_contains_ci "m.rkets" (markets !! "title")
  || field_contains_ci "m.rkets" (markets !! "region")
  || field_contains_ci "m.rkets" (markets !! "excerpt")
  || field_contains_ci "m.rkets" (markets !! "tags") = false ∧
  (exec in_memory (list_posts (Some "m.rkets") 50) shelf).1.1 =
    Return [post_dict (default ∅ (_normalize (Some markets)))].
Proof. repeat split; reflexivity. Qed.
End filter_examples.

(** ** The theorems on the store in memory *)

Section examples.
Import Sample.
#[local] Existing Instances bson builtins collaborators literal.

Lemma get_post_responses_witness :
  exec in_memory (get_post (Some ()) malformed) shelf =
    (Raise (HTTPException 400 "Invalid id"), shelf, []) ∧
  (exec in_memory (get_post (Some ()) missing) shelf).1.1 =
    Raise (HTTPException 404 "Not found") ∧
  ∃ nd,
    (exec in_memory (get_post (Some ()) found) shelf).1.1 =
      Return (Some nd) ∧
    nd !! "views" = Some (VInt 12).
Proof.
  split; [|split].
  - by apply (get_post_responses in_memory shelf (Some ()) malformed).
  - destruct (get_post_responses in_memory shelf (Some ()) missing)
      as [_ Hvalid].
    destruct (Hvalid () eq_refl eq_refl) as (oid & Hoid & H404 & _).
    vm_compute in Hoid. injection Hoid as <-.
    by rewrite (H404 shelf eq_refl).
  - destruct (get_post_responses in_memory shelf (Some ()) found)
      as [_ Hvalid].
    destruct (Hvalid () eq_refl eq_refl) as (oid & Hoid & _ & H200).
    vm_compute in Hoid. injection Hoid as <-.
    destruct (H200 markets shelf eq_refl) as (nd & Hexec & _ & _ & Hk).
    { discriminate. }
    exists nd. split; [by rewrite Hexec|].
    rewrite Hk by discriminate. reflexivity.
Defined.

Lemma delete_post_responses_witness :
  exec in_memory (delete_post (Some ()) malformed) shelf =
    (Raise (HTTPException 400 "Invalid id"), shelf, []) ∧
  status_of (exec in_memory (delete_post (Some ()) missing) shelf).1.1 =
    404 ∧
  (exec in_memory (delete_post (Some ()) found) shelf).1.1 =
    Return {[ "status" := "deleted" ]}.
Proof.
  split; [|split].
  - by apply (delete_post_responses in_memory shelf (Some ()) malformed).
  - destruct (delete_post_responses in_memory shelf (Some ()) missing)
      as [_ Hvalid].
    destruct (Hvalid () eq_refl eq_refl) as (oid & Hoid & H404 & _).
    vm_compute in Hoid. injection Hoid as <-.
    by apply (H404 shelf).
  - destruct (delete_post_responses in_memory shelf (Some ()) found)
      as [_ Hvalid].
    destruct (Hvalid () eq_refl eq_refl) as (oid & Hoid & _ & H200).
    vm_compute in Hoid. injection Hoid as <-.
    edestruct (H200 1) as [-> _]; [reflexivity|discriminate|done].
Defined.

Lemma create_post_responses_witness :
  (exec in_memory (create_post briefing) shelf).1.1 =
    Return {[ "id" := "65a1b2c3d4e5f60718293a4c" ]} ∧
  (exec unreachable (create_post briefing) ()).1.1 =
    Raise (HTTPException 500
             "localhost:27017: [Errno 111] Connection refused").
Proof.
  split.
  - destruct (create_post_responses in_memory shelf briefing) as [Hok _].
    by erewrite Hok.
  - destruct (create_post_responses unreachable () briefing) as [_ Hko].
    edestruct Hko as [-> _]; done.
Defined.

Lemma test_database_always_returns_witness :
  (∃ body,
     (exec unreachable (test_database (Some ())) ()).1.1 = Return body ∧
     database body =
       "⚠️ Connected but error: " +:+
       "localhost:27017: [Errno 111] Connection refused") ∧
  (∃ body,
     (exec timed_out (test_database (Some ())) ()).1.1 = Return body ∧
     database body =
       "⚠️ Connected but error: " +:+
       "münchen.example:27017: [Errno 111] Connection refused, " +:+
       "Timeout: 30s, Topology Dé").
Proof.
  split.
  - destruct (test_database_always_returns unreachable () (Some ()))
      as (body & s' & calls & Hexec & _ & _ & _ & Hsome).
    destruct (Hsome () eq_refl) as (_ & Hraises & _).
    destruct (Hraises _ _ eq_refl) as (shown & rest & Hdb & -> & _).
    exists body. split; [by rewrite Hexec|]. by rewrite Hdb.
  - destruct (test_database_always_returns timed_out () (Some ()))
      as (body & s' & calls & Hexec & _ & _ & _ & Hsome).
    destruct (Hsome () eq_refl) as (_ & Hraises & _).
    destruct (Hraises _ _ eq_refl) as (shown & rest & Hdb & -> & _).
    exists body. split; [by rewrite Hexec|]. by rewrite Hdb.
Defined.

Lemma normalize_never_mutates_input_witness :
  ∃ r h',
    Heap._normalize (Some 1%positive) one_object = Some (r, h') ∧
    h' !! 1%positive = Some markets.
Proof.
  destruct normalize_never_mutates_input as [_ Hframe].
  destruct (Hframe one_object 1%positive markets eq_refl)
    as (r & h' & Hrun & Hsame & _).
  exists r, h'. split; [exact Hrun|exact Hsame].
Defined.

Lemma normalize_discards_existing_id_witness :
  ∃ nd,
    _normalize (Some briefing) = Some nd ∧
    nd !! "id" = Some (VStr "65a1b2c3d4e5f60718293a4c").
Proof.
  destruct (normalize_discards_existing_id briefing
              briefing_id (VInt 7) eq_refl eq_refl)
    as (nd & Hnd & Hid & _).
  exists nd. split; [exact Hnd|exact Hid].
Defined.

Lemma normalize_converts_top_level_only_witness :
  ∃ nd,
    _normalize (Some briefing) = Some nd ∧
    nd !! "content" = Some timeline.
Proof.
  destruct (normalize_converts_top_level_only briefing "content" timeline)
    as (nd & Hnd & _ & Hlist & _);
    [reflexivity|discriminate|right; discriminate|].
  exists nd. split; [exact Hnd|]. by apply Hlist.
Defined.

Lemma list_posts_projection_witness :
  ∃ p,
    (exec in_memory (list_posts None 50) archive).1.1 = Return [p] ∧
    p !! "title" = Some (VStr EmptyString) ∧
    p !! "tags" = Some (VList []) ∧
    p !! "date" = Some (VStr "2024-03-01T12:00:00").
Proof.
  destruct (list_posts_projection in_memory archive None 50 [briefing]
              archive eq_refl) as (posts & Hexec & _ & Hall).
  apply Forall2_cons_inv_l in Hall
    as (p & ? & (_ & Htitle & _ & _ & Hdate & Htags & _) & Hnil & ->).
  apply Forall2_nil_inv_l in Hnil as ->.
  exists p. rewrite Hexec. split; [reflexivity|].
  split; [exact Htitle|]. split; [exact Htags|exact Hdate].
Defined.

Lemma identifier_in_output_witness :
  ∃ nd,
    _normalize (Some markets) = Some nd ∧
    nd !! "_id" = None ∧
    nd !! "id" = Some (VStr "65a1b2c3d4e5f60718293a4b").
Proof.
  destruct (normalize_is_Some markets) as [nd Hnd].
  destruct identifier_in_output as [Hnorm _].
  destruct (Hnorm markets nd Hnd) as [Hno Hid].
  exists nd. split; [exact Hnd|]. split; [exact Hno|].
  exact (Hid (VObjectId oid1) eq_refl).
Defined.

(** A search term is found in the title whatever the case of its
    letters, and a term no field holds finds nothing. *)
Example list_posts_search :
  (exec in_memory (list_posts (Some "markets") 50) shelf).1.1 =
    (exec in_memory (list_posts None 50) shelf).1.1 ∧
  (exec in_memory (list_posts (Some "MARKETS") 50) shelf).1.1 =
    (exec in_memory (list_posts None 50) shelf).1.1 ∧
  (exec in_memory (list_posts (Some "sports") 50) shelf).1.1 = Return [] ∧
  (exec unreachable (list_posts None 50) ()).1.1 =
    Raise (Exception "localhost:27017: [Errno 111] Connection refused").
Proof. repeat split; reflexivity. Qed.

(** Slicing counts characters, not bytes. *)
Example str_slice_to_characters :
  str_slice_to 2 "✅ Running" = "✅ " ∧ str_len "✅ Running" = 9%nat.
Proof. split; reflexivity. Qed.

(** The post of [markets] in the list has no [id], though the document
    has an [_id]. *)
Lemma list_posts_drops_id :
  coll shelf "post" = [markets] ∧
  markets !! "_id" = Some (VObjectId oid1) ∧
  ∃ p,
    (exec in_memory (list_posts None 50) shelf).1.1 = Return [p] ∧
    p !! "id" = None ∧
    p !! "id" ≠ Some (VStr (str (VObjectId oid1))).
Proof.
  do 2 (split; [reflexivity|]).
  set (p := post_dict (default ∅ (_normalize (Some markets)))).
  assert (p !! "id" = None) as Hid by reflexivity.
  exists p. split; [reflexivity|]. split; [exact Hid|].
  rewrite Hid. discriminate.
Qed.

(** The post of [briefing] in the list holds the ISO string of the
    datetime the document has under [date], not the datetime. *)
Lemma list_posts_converts_date :
  coll archive "post" = [briefing] ∧
  briefing !! "date" = Some (VDatetime noon) ∧
  ∃ p,
    (exec in_memory (list_posts None 50) archive).1.1 = Return [p] ∧
    p !! "date" = Some (VStr "2024-03-01T12:00:00") ∧
    p !! "date" ≠ briefing !! "date".
Proof.
  do 2 (split; [reflexivity|]).
  set (p := post_dict (default ∅ (_normalize (Some briefing)))).
  assert (p !! "date" = Some (VStr "2024-03-01T12:00:00")) as Hdate
    by reflexivity.
  assert (briefing !! "date" = Some (VDatetime noon)) as Hstored
    by reflexivity.
  exists p. split; [reflexivity|]. split; [exact Hdate|].
  rewrite Hdate, Hstored. discriminate.
Qed.
End examples.

(** * Further properties *)

(** ** The normalizer, as a function on documents *)

Section normalize_more.
Context `{Builtins}.

Lemma iso_value_idemp (v : value) : iso_value (iso_value v) = iso_value v.
Proof. by destruct v. Qed.

(** The closed form holds for the empty dictionary too. *)
Lemma normalize_closed (d : dict) :
  _normalize (Some d) =
    Some (iso_value <$>
            match d !! "_id" with
            | Some v => <["id" := VStr (str v)]> (delete "_id" d)
            | None => d
            end).
Proof.
  destruct (decide (d = ∅)) as [->|Hd]; [|by apply normalize_Some].
  rewrite normalize_falsy by done.
  by rewrite lookup_empty, fmap_empty.
Qed.

(** What the normalizer returned, it returns as it is. *)
Lemma normalize_fixed_point (d nd : dict) :
  _normalize (Some d) = Some nd → _normalize (Some nd) = Some nd.
Proof.
  intros Hnd.
  rewrite normalize_closed, (normalize_no__id d nd Hnd).
  rewrite normalize_closed in Hnd. injection Hnd as <-.
  rewrite <-map_fmap_compose. f_equal.
  apply map_fmap_ext. intros k v _. apply iso_value_idemp.
Qed.

(** X1. Normalizing what the normalizer returned changes nothing. *)
Theorem normalize_idempotent (doc : option dict) :
  _normalize (_normalize doc) = _normalize doc.
Proof.
  destruct doc as [d|]; [|done].
  destruct (normalize_is_Some d) as [nd Hnd]. rewrite Hnd.
  rewrite normalize_closed, (normalize_no__id d nd Hnd).
  rewrite normalize_closed in Hnd. injection Hnd as <-.
  rewrite <-map_fmap_compose. f_equal.
  apply map_fmap_ext. intros k v _. apply iso_value_idemp.
Qed.

(** X2. The normalized document has the keys of the document, with [id]
    in the place of [_id] when the document has [_id]. *)
Theorem normalize_dom (d : dict) :
  dom <$> _normalize (Some d) =
    Some (if decide ("_id" ∈ dom d)
          then {[ "id" ]} ∪ dom d ∖ {[ "_id" ]}
          else dom d).
Proof.
  rewrite normalize_closed. simpl. f_equal. rewrite dom_fmap_L.
  destruct (d !! "_id") as [v|] eqn:Hv.
  - rewrite decide_True by (apply elem_of_dom; eauto).
    by rewrite dom_insert_L, dom_delete_L.
  - by rewrite decide_False by (by apply not_elem_of_dom).
Qed.

(** X3. No field of the normalized document holds a datetime.  A value
    of the normalized document is the string [str] of [_id], under [id],
    or comes from the field of the same name of the document: the
    [isoformat] string of the datetime that field held, or the very
    value it held when that was no datetime.  And a field of the
    document that held a datetime holds its [isoformat] string in the
    normalized document, unless the field is [_id], or is [id] in a
    document with [_id]. *)
Theorem normalize_no_datetime (d nd : dict) :
  _normalize (Some d) = Some nd →
  (∀ k v, nd !! k = Some v →
     (∀ t, v ≠ VDatetime t) ∧
     ((k = "id" ∧ ∃ w, d !! "_id" = Some w ∧ v = VStr (str w)) ∨
      (k ≠ "_id" ∧
       ∃ w, d !! k = Some w ∧
            match w with
            | VDatetime t => v = VStr (isoformat t)
            | _ => v = w
            end))) ∧
  (∀ k t, d !! k = Some (VDatetime t) →
     k ≠ "_id" → (d !! "_id" = None ∨ k ≠ "id") →
     nd !! k = Some (VStr (isoformat t))).
Proof.
  intros Hnd. split.
  - intros k v Hk.
    assert (k ≠ "_id") as Hne.
    { intros ->. by rewrite (normalize_no__id d nd Hnd) in Hk. }
    destruct (d !! "_id") as [w|] eqn:Hid.
    + destruct (decide (k = "id")) as [->|Hne'].
      * rewrite (normalize_id d nd w Hid Hnd) in Hk. injection Hk as <-.
        split; [done|]. left. eauto.
      * rewrite (normalize_other d nd k) in Hk by auto.
        apply fmap_Some in Hk as (w' & Hw' & ->).
        split; [by destruct w'|]. right. split; [done|].
        exists w'. split; [done|]. by destruct w'.
    + rewrite (normalize_other d nd k) in Hk by auto.
      apply fmap_Some in Hk as (w' & Hw' & ->).
      split; [by destruct w'|]. right. split; [done|].
      exists w'. split; [done|]. by destruct w'.
  - intros k t Hk Hne Hid.
    by rewrite (normalize_other d nd k), Hk.
Qed.

(** X4. A document without [_id] whose fields hold no datetime comes
    back with the contents it had. *)
Theorem normalize_plain (d : dict) :
  d !! "_id" = None →
  (∀ k v, d !! k = Some v → is_datetime v = false) →
  _normalize (Some d) = Some d.
Proof.
  intros Hid Hplain. rewrite normalize_closed, Hid. f_equal.
  rewrite <-(map_fmap_id d) at 2.
  apply map_fmap_ext. intros k v Hk.
  by apply iso_value_not_datetime, (Hplain k).
Qed.
End normalize_more.

(** ** The handlers: failures of the store and what they never do *)

Section handlers_more.
Context `{Builtins, Collaborators}.

(** [create_post], path by path. *)
Lemma exec_create_post {σ} (st : store σ) (s : σ) (post : Post) :
  let e := create_document "post" post in
  exec st (create_post post) s =
    (match (st _ e s).1 with
     | Returns inserted_id => Return {[ "id" := inserted_id ]}
     | Raises m => Raise (HTTPException 500 m)
     end, (st _ e s).2, [existT _ e]).
Proof.
  intros e. unfold create_post. cbn. fold e.
  by destruct (st _ e s) as [[x|m] s'].
Qed.

(** X5. [get_post] with a well-formed identifier and a lookup that
    raises: it responds 500 with the [str] of the exception as the
    detail, after that one call. *)
Theorem get_post_store_failure {σ} (st : store σ) (s s' : σ)
    (collection : Database) (post_id : string) (oid : ObjectId)
    (message : string) :
  is_valid post_id = true →
  ObjectId_new post_id = Some oid →
  st _ (find_one collection "post" {[ "_id" := VObjectId oid ]}) s =
    (Raises message, s') →
  exec st (get_post (Some collection) post_id) s =
    (Raise (HTTPException 500 message), s',
     [existT _ (find_one collection "post" {[ "_id" := VObjectId oid ]})]).
Proof.
  intros Hvalid Hoid Hst. rewrite exec_get_post, Hvalid, Hoid. cbv zeta.
  by rewrite Hst.
Qed.

(** X6. [delete_post] with a well-formed identifier and a delete that
    raises: it responds 500 with the [str] of the exception as the
    detail, after that one call. *)
Theorem delete_post_store_failure {σ} (st : store σ) (s s' : σ)
    (collection : Database) (post_id : string) (oid : ObjectId)
    (message : string) :
  is_valid post_id = true →
  ObjectId_new post_id = Some oid →
  st _ (delete_one collection "post" {[ "_id" := VObjectId oid ]}) s =
    (Raises message, s') →
  exec st (delete_post (Some collection) post_id) s =
    (Raise (HTTPException 500 message), s',
     [existT _ (delete_one collection "post" {[ "_id" := VObjectId oid ]})]).
Proof.
  intros Hvalid Hoid Hst. rewrite exec_delete_post, Hvalid, Hoid. cbv zeta.
  by rewrite Hst.
Qed.

(** X7. Without a store handle ([db] is [None]), [get_post] and
    [delete_post] respond 500 to a well-formed identifier, with the
    message of the [TypeError] of [db["post"]], and 400 to one that is
    not well formed; they make no store call. *)
Theorem handlers_without_store_handle {σ} (st : store σ) (s : σ)
    (post_id : string) :
  let type_error :=
    HTTPException 500 "'NoneType' object is not subscriptable" in
  let invalid := HTTPException 400 "Invalid id" in
  exec st (get_post None post_id) s =
    (Raise (if is_valid post_id then type_error else invalid), s, []) ∧
  exec st (delete_post None post_id) s =
    (Raise (if is_valid post_id then type_error else invalid), s, []).
Proof.
  rewrite exec_get_post, exec_delete_post.
  by destruct (is_valid post_id).
Qed.

(** X8. [get_post] takes a document without fields for no document: when
    the lookup returns the empty dictionary it responds 404. *)
Theorem get_post_empty_document {σ} (st : store σ) (s s' : σ)
    (collection : Database) (post_id : string) (oid : ObjectId) :
  is_valid post_id = true →
  ObjectId_new post_id = Some oid →
  st _ (find_one collection "post" {[ "_id" := VObjectId oid ]}) s =
    (Returns (Some ∅), s') →
  exec st (get_post (Some collection) post_id) s =
    (Raise (HTTPException 404 "Not found"), s',
     [existT _ (find_one collection "post" {[ "_id" := VObjectId oid ]})]).
Proof.
  intros Hvalid Hoid Hst. rewrite exec_get_post, Hvalid, Hoid. cbv zeta.
  by rewrite Hst.
Qed.

(** X9. [list_posts] has no [try]: when [get_documents] raises, the
    exception leaves the handler as it is, not as an [HTTPException]. *)
Theorem list_posts_store_failure {σ} (st : store σ) (s s' : σ)
    (q : option string) (limit : Z) (message : string) :
  st _ (get_documents "post" (filter_dict q) limit) s =
    (Raises message, s') →
  exec st (list_posts q limit) s =
    (Raise (Exception message), s',
     [existT _ (get_documents "post" (filter_dict q) limit)]).
Proof. intros Hst. rewrite exec_list_posts. cbv zeta. by rewrite Hst. Qed.

(** X10. The statuses a handler can respond with, and the store calls it
    can make: [read_root] 200 and no call; [list_posts] and
    [create_post] 200 or 500 and one call; [get_post] and [delete_post]
    200, 400, 404 or 500 and at most one call. *)
Theorem handler_statuses_and_calls {σ} (st : store σ) (s : σ)
    (db : option Database) (post_id : string) (q : option string)
    (limit : Z) (post : Post) :
  (status_of (exec st read_root s).1.1 = 200 ∧
   (exec st read_root s).2 = []) ∧
  (status_of (exec st (list_posts q limit) s).1.1 ∈ [200; 500] ∧
   length (exec st (list_posts q limit) s).2 = 1%nat) ∧
  (status_of (exec st (create_post post) s).1.1 ∈ [200; 500] ∧
   length (exec st (create_post post) s).2 = 1%nat) ∧
  (status_of (exec st (get_post db post_id) s).1.1 ∈ [200; 400; 404; 500] ∧
   (length (exec st (get_post db post_id) s).2 ≤ 1)%nat) ∧
  (status_of (exec st (delete_post db post_id) s).1.1
     ∈ [200; 400; 404; 500] ∧
   (length (exec st (delete_post db post_id) s).2 ≤ 1)%nat).
Proof.
  split; [done|]. split; [|split; [|split]].
  - rewrite exec_list_posts. cbv zeta.
    destruct (st _ _ s) as [[docs|m] s']; simpl; [|set_solver].
    destruct (append_posts_Forall2 docs []) as (posts & -> & _).
    set_solver.
  - rewrite exec_create_post. cbv zeta.
    destruct (st _ _ s) as [[x|m] s']; simpl; set_solver.
  - rewrite exec_get_post.
    destruct (is_valid post_id); [|simpl; split; [set_solver|lia]].
    destruct db as [collection|]; [|simpl; split; [set_solver|lia]].
    destruct (ObjectId_new post_id) as [oid|];
      [|simpl; split; [set_solver|lia]].
    cbv zeta. destruct (st _ _ s) as [[doc|m] s']; simpl;
      [|split; [set_solver|lia]].
    destruct (falsy doc); simpl; (split; [set_solver|lia]).
  - rewrite exec_delete_post.
    destruct (is_valid post_id); [|simpl; split; [set_solver|lia]].
    destruct db as [collection|]; [|simpl; split; [set_solver|lia]].
    destruct (ObjectId_new post_id) as [oid|];
      [|simpl; split; [set_solver|lia]].
    cbv zeta. destruct (st _ _ s) as [[n|m] s']; simpl;
      [|split; [set_solver|lia]].
    case_bool_decide; simpl; (split; [set_solver|lia]).
Qed.

(** X11. The document [GET /api/posts/{id}] returns carries the
    identifier it was asked for: when the document the lookup returns has
    the identifier of the filter under [_id], and the [str] of that
    identifier is the path parameter, [id] is the path parameter. *)
Theorem get_post_id_round_trip {σ} (st : store σ) (s s' : σ)
    (collection : Database) (post_id : string) (oid : ObjectId) (d : dict) :
  ObjectId_new post_id = Some oid →
  str (VObjectId oid) = post_id →
  post_id ≠ EmptyString →
  st _ (find_one collection "post" {[ "_id" := VObjectId oid ]}) s =
    (Returns (Some d), s') →
  d !! "_id" = Some (VObjectId oid) →
  ∃ nd,
    (exec st (get_post (Some collection) post_id) s).1.1 = Return (Some nd) ∧
    nd !! "id" = Some (VStr post_id).
Proof.
  intros Hoid Hstr Hne Hst Hid.
  assert (is_valid post_id = true) as Hvalid.
  { unfold is_valid. destruct post_id; [done|].
    apply bool_decide_eq_true. by rewrite Hoid. }
  rewrite exec_get_post, Hvalid, Hoid. cbv zeta. rewrite Hst. simpl.
  rewrite bool_decide_eq_false_2 by (by intros E; rewrite E in Hid).
  destruct (normalize_is_Some d) as [nd Hnd]. exists nd. rewrite Hnd.
  split; [done|]. by rewrite (normalize_id d nd _ Hid Hnd), Hstr.
Qed.

(** X12. A post of the list depends on the six fields of a post only:
    documents that agree on them give the same list, whatever their
    identifiers and their other fields. *)
Theorem append_posts_six_fields (docs1 docs2 normalized : list dict) :
  Forall2 (λ d1 d2 : dict,
    Forall (λ k, d1 !! k = d2 !! k)
           ["title"; "region"; "excerpt"; "date"; "tags"; "content"])
    docs1 docs2 →
  append_posts docs1 normalized = append_posts docs2 normalized.
Proof.
  intros Hall. revert normalized.
  induction Hall as [|d1 d2 docs1 docs2 Hd _ IH]; intros normalized; [done|].
  simpl.
  destruct (normalize_is_Some d1) as [nd1 Hnd1].
  destruct (normalize_is_Some d2) as [nd2 Hnd2].
  rewrite Hnd1, Hnd2, IH. do 3 f_equal.
  unfold post_dict.
  rewrite !(get_normalize d1 nd1), !(get_normalize d2 nd2) by done.
  rewrite !Forall_cons in Hd.
  destruct Hd as (-> & -> & -> & -> & -> & -> & _). done.
Qed.
End handlers_more.

(** ** The diagnostic endpoint: what is cut and what is not *)

Section test_database_more.
Context `{Builtins, Collaborators}.

(** X13. When the enumeration raises, [GET /test] reports no
    collection, and after the words "Connected but error: " the message
    of the exception: whole when it has at most 80 characters, and
    otherwise the text [shown] that begins the message, has 80
    characters and ends where a character ends. *)
Theorem test_database_error_message {σ} (st : store σ) (s s1 : σ)
    (handle : Database) (message : string) :
  st _ (list_collection_names handle) s = (Raises message, s1) →
  ∃ body shown rest,
    exec st (test_database (Some handle)) s =
      (Return body, s1, [existT _ (list_collection_names handle)]) ∧
    backend body = "✅ Running" ∧
    collections body = [] ∧
    database body = "⚠️ Connected but error: " +:+ shown ∧
    message = shown +:+ rest ∧
    match rest with
    | EmptyString => True
    | String a _ => is_continuation a = false
    end ∧
    str_len shown = (80 `min` str_len message)%nat ∧
    ((str_len message ≤ 80)%nat → shown = message).
Proof.
  intros Hst. cbn. rewrite Hst. cbn.
  destruct (str_slice_to_cut 80 message) as (rest & Hrest & Hcut).
  eexists _, (str_slice_to 80 message), rest.
  do 4 (split; [reflexivity|]). split; [exact Hrest|]. split; [exact Hcut|].
  split; [apply str_len_slice_to_min|apply str_slice_to_short].
Qed.

(** X14. When the enumeration returns, [GET /test] reports a prefix of
    the names: all of them when there are at most 10, and 10 of them
    when there are more.  Without a store handle it reports none. *)
Theorem test_database_collections {σ} (st : store σ) (s : σ) :
  (∃ body, (exec st (test_database None) s).1.1 = Return body ∧
           collections body = []) ∧
  (∀ handle names s1,
     st _ (list_collection_names handle) s = (Returns names, s1) →
     ∃ body,
       exec st (test_database (Some handle)) s =
         (Return body, s1, [existT _ (list_collection_names handle)]) ∧
       collections body `prefix_of` names ∧
       ((length names ≤ 10)%nat → collections body = names) ∧
       ((10 ≤ length names)%nat → length (collections body) = 10%nat)).
Proof.
  split; [by eexists|].
  intros handle names s1 Hst. cbn. rewrite Hst. cbn.
  eexists. split; [reflexivity|]. cbn. split; [|split].
  - apply prefix_take.
  - intros ?. by apply take_ge.
  - intros ?. rewrite length_take. lia.
Qed.
End test_database_more.

(** ** The normalizer on the heap, call after call *)

Section heap_more.
Context `{Builtins}.

(** A call on a dictionary with items adds one object, at the first free
    address, and returns that address. *)
Lemma heap_normalize_run (h : Heap.heap) (l : Heap.loc) (c : dict) :
  h !! l = Some c → c ≠ ∅ →
  ∃ nd,
    _normalize (Some c) = Some nd ∧
    Heap._normalize (Some l) h =
      Some (Some (fresh (dom h)), <[fresh (dom h) := nd]> h).
Proof.
  intros Hl Hc. unfold Heap._normalize.
  erewrite bind_Some; [|by apply load_Some].
  rewrite bool_decide_eq_false_2 by done.
  set (l' := fresh (dom h)).
  assert (Heap.dict_copy l h = Some (l', <[l' := c]> h)) as Hcopy.
  { unfold Heap.dict_copy. by rewrite Hl. }
  erewrite bind_Some; [|exact Hcopy].
  erewrite bind_Some; [|apply load_Some, lookup_insert_eq].
  set (c1 := match c !! "_id" with
             | Some v => <["id" := VStr (str v)]> (delete "_id" c)
             | None => c
             end).
  assert ((if bool_decide (is_Some (c !! "_id"))
           then v ← Heap.pop l' "_id"; Heap.setitem l' "id" (VStr (str v))
           else mret ()) (<[l' := c]> h) = Some ((), <[l' := c1]> h)) as Hid.
  { subst c1. destruct (c !! "_id") as [v|] eqn:Hv.
    - rewrite bool_decide_eq_true_2 by done.
      erewrite bind_Some;
        [|unfold Heap.pop; by rewrite lookup_insert_eq; simpl; rewrite Hv].
      erewrite setitem_Some by apply lookup_insert_eq.
      by rewrite !insert_insert_eq.
    - rewrite bool_decide_eq_false_2 by (by intros [? ?]). done. }
  erewrite bind_Some; [|exact Hid].
  erewrite bind_Some; [|apply load_Some, lookup_insert_eq].
  erewrite bind_Some; [|apply for_each_convert, lookup_insert_eq].
  rewrite insert_insert_eq. eexists. split; [|reflexivity].
  unfold _normalize, falsy. by rewrite bool_decide_eq_false_2.
Qed.

(** X15. Two calls on the same dictionary return two different new
    objects with the same contents, and the dictionary still holds what
    it held. *)
Theorem heap_normalize_twice (h : Heap.heap) (l : Heap.loc) (c : dict) :
  h !! l = Some c → c ≠ ∅ →
  ∃ l1 l2 h1 h2 nd,
    Heap._normalize (Some l) h = Some (Some l1, h1) ∧
    Heap._normalize (Some l) h1 = Some (Some l2, h2) ∧
    l1 ≠ l ∧ l2 ≠ l ∧ l1 ≠ l2 ∧
    h2 !! l1 = Some nd ∧ h2 !! l2 = Some nd ∧ h2 !! l = Some c.
Proof.
  intros Hl Hc.
  destruct (heap_normalize_run h l c Hl Hc) as (nd & Hnd & Hrun1).
  set (l1 := fresh (dom h)) in *. set (h1 := <[l1 := nd]> h) in *.
  assert (h !! l1 = None) as Hl1 by apply not_elem_of_dom, is_fresh.
  assert (l1 ≠ l) as Hne1 by congruence.
  assert (h1 !! l = Some c) as Hl'
    by (unfold h1; by rewrite lookup_insert_ne).
  destruct (heap_normalize_run h1 l c Hl' Hc) as (nd' & Hnd' & Hrun2).
  assert (nd' = nd) as -> by congruence.
  set (l2 := fresh (dom h1)) in *.
  assert (h1 !! l2 = None) as Hl2 by apply not_elem_of_dom, is_fresh.
  assert (l2 ≠ l) as Hne2 by congruence.
  assert (l1 ≠ l2) as Hne12.
  { intros E. rewrite <-E in Hl2. unfold h1 in Hl2.
    by rewrite lookup_insert_eq in Hl2. }
  exists l1, l2, h1, (<[l2 := nd]> h1), nd.
  do 5 (split; [done|]). split; [|split].
  - rewrite lookup_insert_ne by done. apply lookup_insert_eq.
  - by rewrite lookup_insert_eq.
  - by rewrite lookup_insert_ne.
Qed.

(** X16. A call on the object a call returned gives a third object,
    which is neither the dictionary nor the second object, with the
    contents of the second; the dictionary still holds what it held. *)
Theorem heap_normalize_again (h : Heap.heap) (l : Heap.loc) (c : dict) :
  h !! l = Some c → c ≠ ∅ →
  ∃ l1 l2 h1 h2 nd,
    Heap._normalize (Some l) h = Some (Some l1, h1) ∧
    Heap._normalize (Some l1) h1 = Some (Some l2, h2) ∧
    l1 ≠ l ∧ l2 ≠ l ∧ l1 ≠ l2 ∧
    h2 !! l1 = Some nd ∧ h2 !! l2 = Some nd ∧ h2 !! l = Some c.
Proof.
  intros Hl Hc.
  destruct (heap_normalize_run h l c Hl Hc) as (nd & Hnd & Hrun1).
  set (l1 := fresh (dom h)) in *. set (h1 := <[l1 := nd]> h) in *.
  assert (h !! l1 = None) as Hl1 by apply not_elem_of_dom, is_fresh.
  assert (l1 ≠ l) as Hne1 by congruence.
  assert (h1 !! l1 = Some nd) as Hl' by apply lookup_insert_eq.
  assert (nd ≠ ∅) as Hnd0.
  { intros ->. rewrite normalize_Some in Hnd by done.
    injection Hnd as Hnd. apply fmap_empty_inv in Hnd.
    destruct (c !! "_id"); [|done].
    by apply insert_non_empty in Hnd. }
  destruct (heap_normalize_run h1 l1 nd Hl' Hnd0) as (nd' & Hnd' & Hrun2).
  assert (nd' = nd) as ->.
  { pose proof (normalize_fixed_point c nd Hnd). congruence. }
  set (l2 := fresh (dom h1)) in *.
  assert (h1 !! l2 = None) as Hl2 by apply not_elem_of_dom, is_fresh.
  assert (l1 ≠ l2) as Hne12 by congruence.
  assert (l2 ≠ l) as Hne2.
  { intros ->. unfold h1 in Hl2. rewrite lookup_insert_ne in Hl2 by done.
    congruence. }
  exists l1, l2, h1, (<[l2 := nd]> h1), nd.
  do 5 (split; [done|]). split; [|split].
  - by rewrite lookup_insert_ne.
  - by rewrite lookup_insert_eq.
  - unfold h1. by rewrite !lookup_insert_ne.
Qed.
End heap_more.

(** ** The further properties on the store in memory *)

Section more_examples.
Import Sample.
#[local] Existing Instances bson builtins collaborators literal.

Lemma normalize_no_datetime_witness :
  ∃ nd,
    _normalize (Some markets) = Some nd ∧
    nd !! "created_at" = Some (VStr "2024-01-15T09:30:00") ∧
    ∀ k v, nd !! k = Some v → ∀ t, v ≠ VDatetime t.
Proof.
  destruct (normalize_is_Some markets) as [nd Hnd].
  destruct (normalize_no_datetime markets nd Hnd) as [Hall Hiso].
  exists nd. split; [exact Hnd|]. split.
  - apply (Hiso "created_at"
             {| year := 2024; month := 1; day := 15;
                hour := 9; minute := 30; second := 0 |});
      [reflexivity|discriminate|right; discriminate].
  - intros k v Hk. exact (proj1 (Hall k v Hk)).
Defined.

Lemma normalize_plain_witness : _normalize (Some draft) = Some draft.
Proof.
  apply normalize_plain; [reflexivity|].
  intros k v Hk. unfold draft in Hk.
  apply lookup_insert_Some in Hk as [[_ <-]|[_ Hk]]; [reflexivity|].
  apply lookup_singleton_Some in Hk as [_ <-]. reflexivity.
Defined.

Lemma get_post_store_failure_witness :
  (exec unreachable (get_post (Some ()) found) ()).1.1 =
    Raise (HTTPException 500
             "localhost:27017: [Errno 111] Connection refused").
Proof.
  erewrite (get_post_store_failure unreachable () () () found);
    reflexivity.
Defined.

Lemma delete_post_store_failure_witness :
  (exec unreachable (delete_post (Some ()) found) ()).1.1 =
    Raise (HTTPException 500
             "localhost:27017: [Errno 111] Connection refused").
Proof.
  erewrite (delete_post_store_failure unreachable () () () found);
    reflexivity.
Defined.

Lemma get_post_empty_document_witness :
  (exec hollow (get_post (Some ()) found) ()).1.1 =
    Raise (HTTPException 404 "Not found").
Proof.
  erewrite (get_post_empty_document hollow () () () found); reflexivity.
Defined.

Lemma list_posts_store_failure_witness :
  (exec unreachable (list_posts (Some "markets") 50) ()).1.1 =
    Raise (Exception "localhost:27017: [Errno 111] Connection refused").
Proof.
  erewrite (list_posts_store_failure unreachable () ()); reflexivity.
Defined.

Lemma get_post_id_round_trip_witness :
  ∃ nd,
    (exec in_memory (get_post (Some ()) found) shelf).1.1 =
      Return (Some nd) ∧
    nd !! "id" = Some (VStr found).
Proof.
  apply (get_post_id_round_trip in_memory shelf shelf () found oid1 markets);
    [reflexivity|reflexivity|discriminate|reflexivity|reflexivity].
Defined.

Lemma append_posts_six_fields_witness :
  append_posts [markets] [] = append_posts [markets_copy] [].
Proof.
  apply append_posts_six_fields.
  constructor; [|constructor].
  repeat (constructor; [reflexivity|]). constructor.
Defined.

Lemma test_database_error_message_witness :
  (∃ body,
     (exec unreachable (test_database (Some ())) ()).1.1 = Return body ∧
     collections body = [] ∧
     database body =
       "⚠️ Connected but error: " +:+
       "localhost:27017: [Errno 111] Connection refused") ∧
  (∃ body shown rest,
     (exec timed_out (test_database (Some ())) ()).1.1 = Return body ∧
     database body = "⚠️ Connected but error: " +:+ shown ∧
     timeout_message = shown +:+ rest ∧
     str_len shown = 80%nat).
Proof.
  split.
  - destruct (test_database_error_message unreachable () () () _ eq_refl)
      as (body & shown & rest & Hexec & _ & Hnone & Hdb & _ & _ & _ & Hwhole).
    exists body. split; [exact (f_equal (λ x, x.1.1) Hexec)|].
    split; [exact Hnone|].
    rewrite Hdb, Hwhole; [reflexivity|]. vm_compute. lia.
  - destruct (test_database_error_message timed_out () () () _ eq_refl)
      as (body & shown & rest & Hexec & _ & _ & Hdb & Hpre & _ & Hlen & _).
    exists body, shown, rest. split; [exact (f_equal (λ x, x.1.1) Hexec)|].
    split; [exact Hdb|]. split; [exact Hpre|]. exact Hlen.
Defined.

Lemma test_database_collections_witness :
  ∃ body,
    (exec dozen (test_database (Some ())) ()).1.1 = Return body ∧
    length (collections body) = 10%nat.
Proof.
  destruct (test_database_collections dozen ()) as [_ Hnames].
  destruct (Hnames () _ () eq_refl) as (body & Hexec & _ & _ & Hten).
  exists body. split; [exact (f_equal (λ x, x.1.1) Hexec)|].
  apply Hten. vm_compute. lia.
Defined.

Lemma heap_normalize_twice_witness :
  ∃ l1 l2 h1 h2,
    Heap._normalize (Some 1%positive) one_object = Some (Some l1, h1) ∧
    Heap._normalize (Some 1%positive) h1 = Some (Some l2, h2) ∧
    l1 ≠ l2 ∧
    h2 !! l1 = h2 !! l2 ∧
    h2 !! 1%positive = Some markets.
Proof.
  destruct (heap_normalize_twice one_object 1%positive markets)
    as (l1 & l2 & h1 & h2 & nd & H1 & H2 & _ & _ & Hne & Hl1 & Hl2 & Hl);
    [reflexivity|discriminate|].
  exists l1, l2, h1, h2. split; [exact H1|]. split; [exact H2|].
  split; [exact Hne|]. split; [|exact Hl]. by rewrite Hl1, Hl2.
Defined.

Lemma heap_normalize_again_witness :
  ∃ l1 l2 h1 h2,
    Heap._normalize (Some 1%positive) one_object = Some (Some l1, h1) ∧
    Heap._normalize (Some l1) h1 = Some (Some l2, h2) ∧
    l1 ≠ l2 ∧
    h2 !! l1 = h2 !! l2.
Proof.
  destruct (heap_normalize_again one_object 1%positive markets)
    as (l1 & l2 & h1 & h2 & nd & H1 & H2 & _ & _ & Hne & Hl1 & Hl2 & _);
    [reflexivity|discriminate|].
  exists l1, l2, h1, h2. split; [exact H1|]. split; [exact H2|].
  split; [exact Hne|]. by rewrite Hl1, Hl2.
Defined.
End more_examples.
